(** * JustPaste backend: the download orchestrator and its endpoints

    A shallow embedding of [main.py].  The Flask application drives the
    yt-dlp engine through a bounded retry loop, locates the produced file
    in a scratch directory by a prefix scan, streams it back and records
    the download in an SQL table.

    The engine, the file system, the clock and the database are external:
    they are represented by an environment of oracles ([Env]) and by an
    explicit world state ([State]) threaded through a small
    state-and-exception monad.  Every effect appends one [event] to the
    state's trace, so that "how many engine invocations happened" is a
    property of the final state. *)

From Stdlib Require Import String Ascii List Arith ZArith Lia Bool.
From Stdlib Require Import DecimalString.
From Stdlib Require Import Sorting.Sorted Sorting.Permutation.
Import ListNotations.

Local Open Scope string_scope.
Local Open Scope list_scope.

(* ===================================================================== *)
(** ** Python strings and [posixpath]                                    *)
(* ===================================================================== *)

(** File names and paths are byte strings.  [str.lower] is modelled on the
    ASCII letters, which is where it can produce the characters of the
    suffixes the locator tests for. *)
Module PyStr.

(** [s.startswith(p)] *)
Fixpoint startswith (s p : string) : bool :=
  match p, s with
  | EmptyString, _ => true
  | String _ _, EmptyString => false
  | String b p', String a s' => Ascii.eqb a b && startswith s' p'
  end.

(** [s.endswith(suf)]: [s] itself is [suf], or the tail of [s] ends
    with [suf]. *)
Fixpoint endswith (s suf : string) : bool :=
  String.eqb s suf ||
  match s with
  | EmptyString => false
  | String _ s' => endswith s' suf
  end.

Definition lower_ascii (c : ascii) : ascii :=
  let n := nat_of_ascii c in
  if Nat.leb 65 n && Nat.leb n 90 then ascii_of_nat (n + 32) else c.

(** [s.lower()] *)
Fixpoint lower (s : string) : string :=
  match s with
  | EmptyString => EmptyString
  | String c s' => String (lower_ascii c) (lower s')
  end.

(** [s.split(sep)[0]]: the part of [s] before the first [sep]
    (all of [s] when [sep] does not occur). *)
Fixpoint split_head (sep : ascii) (s : string) : string :=
  match s with
  | EmptyString => EmptyString
  | String c s' => if Ascii.eqb c sep then EmptyString
                   else String c (split_head sep s')
  end.

(** [str(n)] for a non-negative integer. *)
Definition str_of_nat (n : nat) : string :=
  NilEmpty.string_of_uint (Nat.to_uint n).

(** [(p[:i], p[i:])] with [i = p.rfind('/') + 1]; [None] when [p] holds
    no slash (then [i = 0]). *)
Fixpoint rsplit_slash (p : string) : option (string * string) :=
  match p with
  | EmptyString => None
  | String c p' =>
      match rsplit_slash p' with
      | Some (h, t) => Some (String c h, t)
      | None => if Ascii.eqb c "/" then Some ("/", p') else None
      end
  end.

Fixpoint all_slashes (s : string) : bool :=
  match s with
  | EmptyString => true
  | String c s' => Ascii.eqb c "/" && all_slashes s'
  end.

(** [s.rstrip('/')] *)
Fixpoint rstrip_slash (s : string) : string :=
  match s with
  | EmptyString => EmptyString
  | String c s' =>
      let r := rstrip_slash s' in
      if Ascii.eqb c "/" && String.eqb r "" then EmptyString
      else String c r
  end.

(** [os.path.basename] *)
Definition basename (p : string) : string :=
  match rsplit_slash p with
  | Some (_, t) => t
  | None => p
  end.

(** [os.path.dirname]: the head up to the last slash, trailing slashes
    stripped unless the head is made of slashes only. *)
Definition dirname (p : string) : string :=
  let head := match rsplit_slash p with
              | Some (h, _) => h
              | None => EmptyString
              end in
  if negb (String.eqb head "") && negb (all_slashes head)
  then rstrip_slash head
  else head.

(** [os.path.join(a, b)] *)
Definition join (a b : string) : string :=
  if startswith b "/" then b
  else if String.eqb a "" || endswith a "/" then a ++ b
  else a ++ "/" ++ b.

End PyStr.


(* ===================================================================== *)
(** ** Python values, exceptions and the engine options                  *)
(* ===================================================================== *)

(** The values that occur in the option dictionaries and in the JSON
    bodies.  A [dict] literal is kept as the list of its items, in the
    order the source writes them. *)
Unset Elimination Schemes.
Inductive pyval : Type :=
| PStr (s : string)
| PInt (n : Z)
| PList (l : list pyval)
| PDict (items : list (string * pyval)).
Set Elimination Schemes.

Definition pydict : Type := list (string * pyval).

(** [d.get(key)] *)
Fixpoint dict_get (key : string) (d : pydict) : option pyval :=
  match d with
  | [] => None
  | (k, v) :: d' => if String.eqb k key then Some v else dict_get key d'
  end.

(** The exceptions that reach the handlers of [main.py]; all of them are
    subclasses of [Exception].  [OtherException] stands for whatever the
    engine, the database session or Flask raise, with the class name. *)
Inductive exn : Type :=
| ValueError (msg : string)
| FileNotFoundError (msg : string)
| OtherException (cls msg : string).

(** [str(e)] *)
Definition str_exn (e : exn) : string :=
  match e with
  | ValueError m => m
  | FileNotFoundError m => m
  | OtherException _ m => m
  end.

Inductive result (A : Type) : Type :=
| Ok (a : A)
| Raise (e : exn).
Arguments Ok {A} a.
Arguments Raise {A} e.

Definition MAX_DOWNLOAD_RETRIES : nat := 2.

(** [get_ydl_opts(fmt, quality, tpl)] *)
Definition get_ydl_opts (fmt quality tpl : string) : result pydict :=
  if String.eqb fmt "mp4" then
    Ok [ ("format", PStr "bestvideo+bestaudio/best");
         ("outtmpl", PStr tpl);
         ("merge_output_format", PStr "mp4");
         ("retries", PInt (Z.of_nat MAX_DOWNLOAD_RETRIES)) ]
  else if String.eqb fmt "mp3" then
    Ok [ ("format", PStr "bestaudio/best");
         ("outtmpl", PStr tpl);
         ("postprocessors",
           PList [ PDict [ ("key", PStr "FFmpegExtractAudio");
                           ("preferredcodec", PStr "mp3");
                           ("preferredquality", PStr "192") ] ]);
         ("retries", PInt (Z.of_nat MAX_DOWNLOAD_RETRIES)) ]
  else
    Raise (ValueError ("Unsupported format: " ++ fmt)).

(* ===================================================================== *)
(** ** The history table                                                 *)
(* ===================================================================== *)

Module DownloadHistory.

Record t : Type := mk {
  id : Z;
  url : string;
  file_format : string;
  quality : string;
  timestamp : Z          (* a [datetime], as an instant on the time line *)
}.

(** [as_dict(self)]; [isoformat] is [datetime.isoformat]. *)
Definition as_dict (isoformat : Z -> string) (self : t) : pydict :=
  [ ("id", PInt (id self));
    ("url", PStr (url self));
    ("file_format", PStr (file_format self));
    ("quality", PStr (quality self));
    ("timestamp", PStr (isoformat (timestamp self) ++ "Z")) ].

(** The primary key the store assigns to a new row. *)
Definition next_id (rows : list t) : Z :=
  1 + fold_right Z.max 0%Z (map id rows).

(** [ORDER BY timestamp DESC]: insertion of a row into a list that is
    already in descending order, before the first row that is not more
    recent. *)
Fixpoint insert_desc (r : t) (rows : list t) : list t :=
  match rows with
  | [] => [r]
  | r' :: rest =>
      if Z.leb (timestamp r') (timestamp r) then r :: r' :: rest
      else r' :: insert_desc r rest
  end.

Fixpoint order_by_timestamp_desc (rows : list t) : list t :=
  match rows with
  | [] => []
  | r :: rest => insert_desc r (order_by_timestamp_desc rest)
  end.

End DownloadHistory.

(* ===================================================================== *)
(** ** The world: environment, state and events                          *)
(* ===================================================================== *)

(** What one invocation of the engine does: it may rewrite the content of
    the template's directory ([eo_listing], in the order [os.listdir] will
    yield it) and it returns normally or raises. *)
Record engine_outcome : Type := {
  eo_listing : option (list string);
  eo_error : option exn
}.

(** The external collaborators.  The engine is indexed by the number of
    engine invocations made so far, the other oracles by the logical
    clock (the length of the trace). *)
Record Env : Type := {
  API_KEY : option string;              (* [os.getenv('API_KEY')] *)
  engine : nat -> engine_outcome;       (* [YoutubeDL(opts).download([url])] *)
  mkdtemp_name : nat -> string;         (* [tempfile.mkdtemp()] *)
  utcnow : nat -> Z;                    (* [datetime.utcnow] *)
  isoformat : Z -> string;              (* [datetime.isoformat] *)
  commit_error : nat -> option exn;     (* [db.session.commit()] *)
  send_file_error : nat -> option exn;  (* [send_file(path, ...)] *)
  rmtree_fails : nat -> bool            (* a removal that the OS refuses *)
}.

Inductive event : Type :=
| EvEngine (url : string) (opts : pydict)
| EvWarning (msg : string)
| EvException (msg : string)
| EvListdir (d : string)
| EvMkdtemp (d : string)
| EvRmtree (d : string)
| EvCommit (row : DownloadHistory.t)
| EvSendFile (path : string).

(** [fs] maps a directory to its entries; [db] is the history table in
    insertion order; [trace] holds the effects, most recent first. *)
Record State : Type := {
  fs : list (string * list string);
  db : list DownloadHistory.t;
  trace : list event
}.

Definition fs_get (d : string) (f : list (string * list string))
  : option (list string) :=
  match find (fun p => String.eqb (fst p) d) f with
  | Some p => Some (snd p)
  | None => None
  end.

Definition fs_remove (d : string) (f : list (string * list string))
  : list (string * list string) :=
  filter (fun p => negb (String.eqb (fst p) d)) f.

Definition fs_set (d : string) (l : list string)
  (f : list (string * list string)) : list (string * list string) :=
  (d, l) :: fs_remove d f.

Definition is_engine (e : event) : bool :=
  match e with EvEngine _ _ => true | _ => false end.

Definition is_listdir (e : event) : bool :=
  match e with EvListdir _ => true | _ => false end.

Definition is_rmtree (d : string) (e : event) : bool :=
  match e with EvRmtree d' => String.eqb d' d | _ => false end.

(** The number of engine invocations a state has seen. *)
Definition engine_calls (st : State) : nat :=
  length (filter is_engine (trace st)).

Definition listdir_calls (st : State) : nat :=
  length (filter is_listdir (trace st)).

Definition clock (st : State) : nat := length (trace st).

Definition emit (e : event) (st : State) : State :=
  {| fs := fs st; db := db st; trace := e :: trace st |}.

(* ===================================================================== *)
(** ** A state-and-exception monad                                       *)
(* ===================================================================== *)

Definition M (A : Type) : Type := State -> result A * State.

Definition ret {A : Type} (a : A) : M A := fun st => (Ok a, st).

Definition raise {A : Type} (e : exn) : M A := fun st => (Raise e, st).

Definition bind {A B : Type} (m : M A) (k : A -> M B) : M B :=
  fun st =>
    match m st with
    | (Ok a, st') => k a st'
    | (Raise e, st') => (Raise e, st')
    end.

(** A pure computation that may raise. *)
Definition lift {A : Type} (r : result A) : M A := fun st => (r, st).

(** [try: body  except Exception as e: handler(e)] *)
Definition try_except {A : Type} (body : M A) (handler : exn -> M A) : M A :=
  fun st =>
    match body st with
    | (Ok a, st') => (Ok a, st')
    | (Raise e, st') => handler e st'
    end.

(** [try: body  finally: fin].  The outcome of [body] is kept unless
    [fin] itself raises, in which case that exception replaces it. *)
Definition try_finally {A : Type} (body : M A) (fin : M unit) : M A :=
  fun st =>
    match body st with
    | (r, st') =>
        match fin st' with
        | (Ok _, st'') => (r, st'')
        | (Raise e, st'') => (Raise e, st'')
        end
    end.

Declare Scope pym_scope.
Delimit Scope pym_scope with pym.
Notation "x <- c1 ;; c2" := (bind c1 (fun x => c2))
  (at level 61, c1 at next level, right associativity) : pym_scope.
Notation "c1 ;; c2" := (bind c1 (fun _ => c2))
  (at level 61, right associativity) : pym_scope.
Local Open Scope pym_scope.

(* ===================================================================== *)
(** ** Primitive effects                                                 *)
(* ===================================================================== *)

(** What a view function returns to Flask. *)
Inductive response : Type :=
| JsonResponse (body : pyval) (status : nat)
| TextResponse (body : string) (status : nat)
| FileResponse (path : string) (as_attachment : bool)
    (download_name : string).

(** How an iteration of a [for] loop ends. *)
Inductive loop_ctl : Type := Break | Continue.

Record Request : Type := {
  authorization : option string;     (* the [Authorization] header *)
  args : list (string * string)      (* the query string *)
}.

Section Backend.

Variable env : Env.

(** [logging.warning(msg)] *)
Definition logging_warning (msg : string) : M unit :=
  fun st => (Ok tt, emit (EvWarning msg) st).

(** [logging.exception(msg)] *)
Definition logging_exception (msg : string) : M unit :=
  fun st => (Ok tt, emit (EvException msg) st).

(** The directory the engine writes to: that of its ['outtmpl'] option
    (the working directory when the option is absent). *)
Definition outdir (opts : pydict) : string :=
  match dict_get "outtmpl" opts with
  | Some (PStr t) => PyStr.dirname t
  | _ => ""
  end.

(** [with yt_dlp.YoutubeDL(opts) as ydl: ydl.download([url])]: one
    invocation of the engine. *)
Definition ydl_download (url : string) (opts : pydict) : M unit :=
  fun st =>
    let o := engine env (engine_calls st) in
    let f := match eo_listing o with
             | Some l => fs_set (outdir opts) l (fs st)
             | None => fs st
             end in
    let st' := {| fs := f; db := db st;
                  trace := EvEngine url opts :: trace st |} in
    match eo_error o with
    | Some e => (Raise e, st')
    | None => (Ok tt, st')
    end.

(** [os.listdir(d)] *)
Definition os_listdir (d : string) : M (list string) :=
  fun st =>
    match fs_get d (fs st) with
    | Some l => (Ok l, emit (EvListdir d) st)
    | None =>
        (Raise (FileNotFoundError
                  ("[Errno 2] No such file or directory: '" ++ d ++ "'")),
         emit (EvListdir d) st)
    end.

(** [tempfile.mkdtemp()] *)
Definition mkdtemp : M string :=
  fun st =>
    let d := mkdtemp_name env (clock st) in
    (Ok d, {| fs := fs_set d [] (fs st); db := db st;
              trace := EvMkdtemp d :: trace st |}).

(** [shutil.rmtree(d, ignore_errors=True)]: removes the tree when the
    operating system lets it; a refusal (or a missing directory) is
    swallowed. *)
Definition rmtree_ignore_errors (d : string) : M unit :=
  fun st =>
    let f := if rmtree_fails env (clock st) then fs st
             else fs_remove d (fs st) in
    (Ok tt, {| fs := f; db := db st; trace := EvRmtree d :: trace st |}).

(** [db.session.add(DownloadHistory(url=..., file_format=...,
    quality=...)); db.session.commit()] *)
Definition db_add_commit (url fmt quality : string) : M unit :=
  fun st =>
    match commit_error env (clock st) with
    | Some e => (Raise e, st)
    | None =>
        let row := DownloadHistory.mk (DownloadHistory.next_id (db st))
                     url fmt quality (utcnow env (clock st)) in
        (Ok tt, {| fs := fs st; db := db st ++ [row];
                   trace := EvCommit row :: trace st |})
    end.

(** [send_file(path, as_attachment=True, download_name=name)] *)
Definition send_file (path name : string) : M response :=
  fun st =>
    match send_file_error env (clock st) with
    | Some e => (Raise e, st)
    | None => (Ok (FileResponse path true name), emit (EvSendFile path) st)
    end.

(* ===================================================================== *)
(** ** [download_single]                                                 *)
(* ===================================================================== *)

(** The body of the [for attempt in range(retries)] loop. *)
Definition attempt_body (retries : nat) (url : string) (opts : pydict)
  (attempt : nat) : M loop_ctl :=
  try_except
    (ydl_download url opts ;; ret Break)
    (fun e =>
       logging_warning ("Attempt " ++ PyStr.str_of_nat (attempt + 1)
                          ++ " failed: " ++ str_exn e) ;;
       if Nat.eqb attempt (retries - 1) then raise e else ret Continue).

Fixpoint for_attempts (retries : nat) (url : string) (opts : pydict)
  (attempts : list nat) : M unit :=
  match attempts with
  | [] => ret tt
  | attempt :: rest =>
      c <- attempt_body retries url opts attempt ;;
      match c with
      | Break => ret tt
      | Continue => for_attempts retries url opts rest
      end
  end.

(** [range(n)] *)
Definition range (n : nat) : list nat := seq 0 n.

Definition retry_loop (retries : nat) (url : string) (opts : pydict)
  : M unit :=
  for_attempts retries url opts (range retries).

(** The test of the scan:
    [fname.startswith(prefix) and fname.lower().endswith(fmt)]. *)
Definition candidate (prefix fmt fname : string) : bool :=
  PyStr.startswith fname prefix && PyStr.endswith (PyStr.lower fname) fmt.

(** [for fname in entries: if ...: return os.path.join(d, fname)] *)
Fixpoint locate (d prefix fmt : string) (entries : list string)
  : option string :=
  match entries with
  | [] => None
  | fname :: rest =>
      if candidate prefix fmt fname then Some (PyStr.join d fname)
      else locate d prefix fmt rest
  end.

Definition tpl_prefix (tpl : string) : string :=
  PyStr.split_head "." (PyStr.basename tpl).

Definition not_found_msg (fmt prefix : string) : string :=
  "No ." ++ fmt ++ " file found for " ++ prefix.

Definition download_single (url fmt quality tpl : string) : M string :=
  opts <- lift (get_ydl_opts fmt quality tpl) ;;
  retry_loop MAX_DOWNLOAD_RETRIES url opts ;;
  let d := PyStr.dirname tpl in
  let prefix := tpl_prefix tpl in
  entries <- os_listdir d ;;
  match locate d prefix fmt entries with
  | Some path => ret path
  | None => raise (FileNotFoundError (not_found_msg fmt prefix))
  end.

(* ===================================================================== *)
(** ** Routes                                                            *)
(* ===================================================================== *)

(** [request.args.get(key)] *)
Fixpoint args_get (key : string) (a : list (string * string))
  : option string :=
  match a with
  | [] => None
  | (k, v) :: a' => if String.eqb k key then Some v else args_get key a'
  end.

(** Python truth of an optional string: [None] and [''] are false. *)
Definition truthy (o : option string) : bool :=
  match o with
  | None => false
  | Some s => negb (String.eqb s "")
  end.

Definition jsonify_error (msg : string) : pyval :=
  PDict [ ("error", PStr msg) ].

(** [f'Bearer {API_KEY}'] *)
Definition bearer : string :=
  "Bearer " ++ match API_KEY env with
               | Some k => k
               | None => "None"
               end.

(** The [require_api_key] decorator. *)
Definition require_api_key (f : Request -> M response) (req : Request)
  : M response :=
  let auth := match authorization req with
              | Some a => a
              | None => ""
              end in
  if negb (String.eqb auth bearer)
  then ret (JsonResponse (jsonify_error "Unauthorized") 401)
  else f req.

(** The [try] block of [download_get]. *)
Definition download_get_try (url fmt quality tmp : string) : M response :=
  let tpl := PyStr.join tmp "dl.%(ext)s" in
  path <- download_single url fmt quality tpl ;;
  db_add_commit url fmt quality ;;
  send_file path ("JustPaste." ++ fmt).

(** The [except Exception as e] block of [download_get]. *)
Definition download_get_except (e : exn) : M response :=
  logging_exception "Download error" ;;
  ret (JsonResponse (jsonify_error (str_exn e)) 500).

(** The value of an argument that is known to be present. *)
Definition arg_value (o : option string) : string :=
  match o with
  | Some s => s
  | None => ""
  end.

(** [request.args.get('quality', 'best')] *)
Definition quality_arg (req : Request) : string :=
  match args_get "quality" (args req) with
  | Some q => q
  | None => "best"
  end.

(** The view function, before decoration. *)
Definition download_get_view (req : Request) : M response :=
  let url := args_get "url" (args req) in
  let fmt := args_get "format" (args req) in
  let quality := quality_arg req in
  if negb (truthy url) || negb (truthy fmt)
  then ret (JsonResponse (jsonify_error "Missing url or format") 400)
  else
    tmp <- mkdtemp ;;
    try_finally
      (try_except
         (download_get_try (arg_value url) (arg_value fmt) quality tmp)
         download_get_except)
      (rmtree_ignore_errors tmp).

Definition download_get : Request -> M response :=
  require_api_key download_get_view.

Definition history_view (_ : Request) : M response :=
  fun st =>
    let recs := DownloadHistory.order_by_timestamp_desc (db st) in
    (Ok (JsonResponse
           (PList (map (fun r => PDict (DownloadHistory.as_dict
                                          (isoformat env) r)) recs))
           200),
     st).

Definition history : Request -> M response :=
  require_api_key history_view.

End Backend.

(* ===================================================================== *)
(** ** The locator's criterion in the words of the specification         *)
(* ===================================================================== *)

(** The extension of a file name: what follows its last dot. *)
Fixpoint extension (s : string) : option string :=
  match s with
  | EmptyString => None
  | String c s' =>
      match extension s' with
      | Some e => Some e
      | None => if Ascii.eqb c "." then Some s' else None
      end
  end.

(** "starts with the template's prefix and whose extension matches the
    requested format, case-insensitive on the extension". *)
Definition spec_candidate (prefix fmt fname : string) : bool :=
  PyStr.startswith fname prefix &&
  match extension (PyStr.lower fname) with
  | Some e => String.eqb e fmt
  | None => false
  end.

(** The first entry of the listing that meets [spec_candidate]. *)
Fixpoint spec_locate (d prefix fmt : string) (entries : list string)
  : option string :=
  match entries with
  | [] => None
  | fname :: rest =>
      if spec_candidate prefix fmt fname then Some (PyStr.join d fname)
      else spec_locate d prefix fmt rest
  end.

Definition supported (fmt : string) : Prop := fmt = "mp4" \/ fmt = "mp3".

(** The request passes the [require_api_key] check. *)
Definition authorized (env : Env) (req : Request) : Prop :=
  authorization req = Some (bearer env).

(* ===================================================================== *)
(** ** Concrete worlds for the scenarios                                 *)
(* ===================================================================== *)

Definition writes (l : list string) : engine_outcome :=
  {| eo_listing := Some l; eo_error := None |}.

Definition fails (msg : string) : engine_outcome :=
  {| eo_listing := None;
     eo_error := Some (OtherException "DownloadError" msg) |}.

(** An environment whose engine follows a script, invocation by
    invocation (and fails once the script is over); [blocked] tells
    whether the operating system refuses removals. *)
Definition scripted (script : list engine_outcome) (blocked : bool) : Env :=
  {| API_KEY := Some "k3y";
     engine := fun k => nth k script (fails "script over");
     mkdtemp_name := fun _ => "/tmp/tmpab12";
     utcnow := fun n => Z.of_nat n;
     isoformat := fun _ => "2024-05-01T10:00:00";
     commit_error := fun _ => None;
     send_file_error := fun _ => None;
     rmtree_fails := fun _ => blocked |}.

Definition empty_state : State := {| fs := []; db := []; trace := [] |}.

(** A state in which the scratch directory of the scenarios exists. *)
Definition scratch_state : State :=
  {| fs := [("/tmp/tmpab12", [])]; db := []; trace := [] |}.

Definition scratch_tpl : string := "/tmp/tmpab12/dl.%(ext)s".

Definition request (fmt : string) : Request :=
  {| authorization := Some "Bearer k3y";
     args := [("url", "https://x/video"); ("format", fmt)] |}.

(** A history table whose rows were not inserted in time order. *)
Definition history_state : State :=
  {| fs := [];
     db := [ DownloadHistory.mk 1 "https://x/a" "mp4" "best" 5;
             DownloadHistory.mk 2 "https://x/b" "mp3" "best" 9;
             DownloadHistory.mk 3 "https://x/c" "mp3" "720p" 7 ];
     trace := [] |}.

(** The same environment with another removal oracle. *)
Definition with_rmtree_fails (f : nat -> bool) (env : Env) : Env :=
  {| API_KEY := API_KEY env;
     engine := engine env;
     mkdtemp_name := mkdtemp_name env;
     utcnow := utcnow env;
     isoformat := isoformat env;
     commit_error := commit_error env;
     send_file_error := send_file_error env;
     rmtree_fails := f |}.

(* ===================================================================== *)
(** ** Requests as the download endpoint sees them                       *)
(* ===================================================================== *)

(** The parameters of a request that gets past the two early returns of
    the endpoint (the bearer check and the check of [url] and [format]);
    [None] for a request that is answered 401 or 400. *)
Definition accepted (env : Env) (req : Request)
  : option (string * string * string) :=
  if String.eqb (arg_value (authorization req)) (bearer env)
     && truthy (args_get "url" (args req))
     && truthy (args_get "format" (args req))
  then Some (arg_value (args_get "url" (args req)),
             arg_value (args_get "format" (args req)),
             quality_arg req)
  else None.

(** The scratch directory and the output template of a request that
    starts in state [st]. *)
Definition request_tmp (env : Env) (st : State) : string :=
  mkdtemp_name env (clock st).

Definition request_tpl (env : Env) (st : State) : string :=
  PyStr.join (request_tmp env st) "dl.%(ext)s".

(** The request appended one row with its url, format and quality to the
    history table. *)
Definition recorded (env : Env) (req : Request) (st : State) : Prop :=
  exists row,
    db (snd (download_get env req st)) = db st ++ [row] /\
    Some (DownloadHistory.url row) = args_get "url" (args req) /\
    Some (DownloadHistory.file_format row) = args_get "format" (args req) /\
    DownloadHistory.quality row = quality_arg req.

(** Descending order of the timestamps. *)
Definition newer_first (a b : DownloadHistory.t) : Prop :=
  (DownloadHistory.timestamp b <= DownloadHistory.timestamp a)%Z.

(** The [try ... except] block of an accepted request, which the
    [finally] clause guards. *)
Definition guarded (env : Env) (url fmt quality tmp : string) : M response :=
  try_except (download_get_try env url fmt quality tmp) download_get_except.

(** The endpoint followed by one more removal of the directory [d]. *)
Definition download_get_then_rmtree (env : Env) (d : string)
  (req : Request) : M response :=
  r <- download_get env req ;;
  rmtree_ignore_errors env d ;;
  ret r.

(* ===================================================================== *)
(** ** The remaining routes and further vocabulary                       *)
(* ===================================================================== *)

(** [index()] *)
Definition index : M response :=
  ret (TextResponse "JustPaste Backend Running!" 200).

(** [healthz()] *)
Definition healthz : M response := ret (TextResponse "OK" 200).

(** The 401, 400 and 500 answers of the endpoints. *)
Definition error_response (msg : string) (status : nat) : response :=
  JsonResponse (PDict [("error", PStr msg)]) status.

(** ['/' in s] *)
Fixpoint has_slash (s : string) : bool :=
  match s with
  | EmptyString => false
  | String c s' => Ascii.eqb c "/" || has_slash s'
  end.

(** A directory name as [os.path.dirname] produces them: without a
    trailing slash, unless it is made of slashes only. *)
Definition normal_dir (d : string) : Prop :=
  PyStr.endswith d "/" = false \/ PyStr.all_slashes d = true.


(** The instant at which the engine is invoked for the [k]-th time after
    state [st] returns normally. *)
Definition attempt_succeeds (env : Env) (st : State) (k : nat) : Prop :=
  eo_error (engine env (engine_calls st + k)) = None.


(** Environments that differ from a given one in a single oracle. *)
Definition with_api_key (k : option string) (env : Env) : Env :=
  {| API_KEY := k;
     engine := engine env;
     mkdtemp_name := mkdtemp_name env;
     utcnow := utcnow env;
     isoformat := isoformat env;
     commit_error := commit_error env;
     send_file_error := send_file_error env;
     rmtree_fails := rmtree_fails env |}.

Definition with_commit_error (c : nat -> option exn) (env : Env) : Env :=
  {| API_KEY := API_KEY env;
     engine := engine env;
     mkdtemp_name := mkdtemp_name env;
     utcnow := utcnow env;
     isoformat := isoformat env;
     commit_error := c;
     send_file_error := send_file_error env;
     rmtree_fails := rmtree_fails env |}.

Definition with_send_file_error (c : nat -> option exn) (env : Env) : Env :=
  {| API_KEY := API_KEY env;
     engine := engine env;
     mkdtemp_name := mkdtemp_name env;
     utcnow := utcnow env;
     isoformat := isoformat env;
     commit_error := commit_error env;
     send_file_error := c;
     rmtree_fails := rmtree_fails env |}.

(** A request with a given [Authorization] header and no argument. *)
Definition bare_request (auth : option string) : Request :=
  {| authorization := auth; args := [] |}.

(* ===================================================================== *)
(** ** Frame predicates on computations                                  *)
(* ===================================================================== *)

(** A computation that leaves the history table alone. *)
Definition keeps_db {A : Type} (m : M A) : Prop :=
  forall st, db (snd (m st)) = db st.

(** A computation that only adds events in front of the trace. *)
Definition grows_trace {A : Type} (m : M A) : Prop :=
  forall st, exists evs, trace (snd (m st)) = evs ++ trace st.

(* ===================================================================== *)
(** ** Facts about the string functions                                  *)
(* ===================================================================== *)

Lemma startswith_iff (s p : string) :
  PyStr.startswith s p = true <-> exists r, s = (p ++ r)%string.
Proof.
  revert s. induction p as [|b p IH]; intros s; simpl.
  - split; [intros _; now exists s | now destruct s].
  - destruct s as [|a s]; simpl.
    + split; [discriminate | intros [r Hr]; discriminate].
    + rewrite andb_true_iff, Ascii.eqb_eq, IH. split.
      * intros [-> [r ->]]. now exists r.
      * intros [r Hr]. injection Hr as -> ->. split; [reflexivity | now exists r].
Qed.

Lemma endswith_unfold (s suf : string) :
  PyStr.endswith s suf =
  String.eqb s suf ||
  match s with
  | EmptyString => false
  | String _ s' => PyStr.endswith s' suf
  end.
Proof. destruct s; reflexivity. Qed.

Lemma endswith_iff (s suf : string) :
  PyStr.endswith s suf = true <-> exists r, s = (r ++ suf)%string.
Proof.
  induction s as [|a s IH]; rewrite endswith_unfold.
  - rewrite orb_false_r, String.eqb_eq. split.
    + intros <-. now exists "".
    + intros [r Hr]. destruct r; simpl in Hr; [assumption | discriminate].
  - rewrite orb_true_iff, String.eqb_eq, IH. split.
    + intros [<- | [r ->]]; [now exists "" | now exists (String a r)].
    + intros [[|b r] Hr]; simpl in Hr.
      * now left.
      * injection Hr as -> ->. right. now exists r.
Qed.


Lemma append_assoc (a b c : string) :
  ((a ++ b) ++ c = a ++ (b ++ c))%string.
Proof. induction a as [|x a IH]; simpl; [reflexivity | now rewrite IH]. Qed.


(* ===================================================================== *)
(** ** The scan                                                          *)
(* ===================================================================== *)

(** [locate] returns the joined path of the first entry that passes the
    test, and nothing else. *)
Lemma locate_some (d prefix fmt : string) (entries : list string)
  (path : string) :
  locate d prefix fmt entries = Some path <->
  exists pre fname post,
    entries = pre ++ fname :: post /\
    Forall (fun x => candidate prefix fmt x = false) pre /\
    candidate prefix fmt fname = true /\
    path = PyStr.join d fname.
Proof.
  induction entries as [|x l IH]; simpl.
  - split; [discriminate|].
    intros (pre & f & post & H & _). destruct pre; discriminate.
  - destruct (candidate prefix fmt x) eqn:C.
    + split.
      * intros [= <-]. exists [], x, l. repeat split; auto.
      * intros (pre & f & post & H & Hpre & Hf & ->).
        destruct pre as [|y pre]; simpl in H; injection H as -> ->.
        -- reflexivity.
        -- inversion Hpre; congruence.
    + rewrite IH. split.
      * intros (pre & f & post & -> & Hpre & Hf & ->).
        exists (x :: pre), f, post. repeat split; auto.
      * intros (pre & f & post & H & Hpre & Hf & ->).
        destruct pre as [|y pre]; simpl in H; injection H as -> ->.
        -- congruence.
        -- exists pre, f, post. inversion Hpre; repeat split; auto.
Qed.

Lemma locate_none (d prefix fmt : string) (entries : list string) :
  locate d prefix fmt entries = None <->
  Forall (fun x => candidate prefix fmt x = false) entries.
Proof.
  induction entries as [|x l IH]; simpl.
  - split; auto.
  - destruct (candidate prefix fmt x) eqn:C.
    + split; [discriminate | intros H; inversion H; congruence].
    + rewrite IH. split; [auto | intros H; now inversion H].
Qed.

(** On a listing where the two criteria agree, the scan finds what the
    specification describes. *)
Lemma locate_spec_locate (d prefix fmt : string) (entries : list string) :
  Forall (fun x => candidate prefix fmt x = spec_candidate prefix fmt x)
    entries ->
  locate d prefix fmt entries = spec_locate d prefix fmt entries.
Proof.
  induction 1 as [|x l Hx _ IH]; simpl; [reflexivity|].
  rewrite Hx, IH. reflexivity.
Qed.

(* ===================================================================== *)
(** ** Frame properties of the effects                                   *)
(* ===================================================================== *)

Create HintDb frame.

Section Frames.

Variable env : Env.

Lemma keeps_db_ret {A : Type} (a : A) : keeps_db (ret a).
Proof. intros st. reflexivity. Qed.

Lemma keeps_db_raise {A : Type} (e : exn) : keeps_db (@raise A e).
Proof. intros st. reflexivity. Qed.

Lemma keeps_db_lift {A : Type} (r : result A) : keeps_db (lift r).
Proof. intros st. reflexivity. Qed.

Lemma keeps_db_bind {A B : Type} (m : M A) (k : A -> M B) :
  keeps_db m -> (forall a, keeps_db (k a)) -> keeps_db (bind m k).
Proof.
  intros Hm Hk st. unfold bind. specialize (Hm st).
  destruct (m st) as [[a|e] st1]; simpl in *.
  - rewrite Hk. assumption.
  - assumption.
Qed.

Lemma keeps_db_try_except {A : Type} (m : M A) (h : exn -> M A) :
  keeps_db m -> (forall e, keeps_db (h e)) -> keeps_db (try_except m h).
Proof.
  intros Hm Hh st. unfold try_except. specialize (Hm st).
  destruct (m st) as [[a|e] st1]; simpl in *.
  - assumption.
  - rewrite Hh. assumption.
Qed.

Lemma keeps_db_logging_warning msg : keeps_db (logging_warning msg).
Proof. intros st. reflexivity. Qed.

Lemma keeps_db_logging_exception msg : keeps_db (logging_exception msg).
Proof. intros st. reflexivity. Qed.

Lemma keeps_db_ydl_download url opts : keeps_db (ydl_download env url opts).
Proof.
  intros st. unfold ydl_download.
  destruct (eo_error (engine env (engine_calls st))); reflexivity.
Qed.

Lemma keeps_db_os_listdir d : keeps_db (os_listdir d).
Proof. intros st. unfold os_listdir. destruct (fs_get d (fs st)); reflexivity. Qed.

Lemma keeps_db_mkdtemp : keeps_db (mkdtemp env).
Proof. intros st. reflexivity. Qed.

Lemma keeps_db_rmtree d : keeps_db (rmtree_ignore_errors env d).
Proof. intros st. reflexivity. Qed.

Lemma grows_trace_ret {A : Type} (a : A) : grows_trace (ret a).
Proof. intros st. now exists []. Qed.

Lemma grows_trace_raise {A : Type} (e : exn) : grows_trace (@raise A e).
Proof. intros st. now exists []. Qed.

Lemma grows_trace_lift {A : Type} (r : result A) : grows_trace (lift r).
Proof. intros st. now exists []. Qed.

Lemma grows_trace_bind {A B : Type} (m : M A) (k : A -> M B) :
  grows_trace m -> (forall a, grows_trace (k a)) -> grows_trace (bind m k).
Proof.
  intros Hm Hk st. unfold bind. destruct (Hm st) as [evs Hevs].
  destruct (m st) as [[a|e] st1]; simpl in *.
  - destruct (Hk a st1) as [evs' Hevs']. exists (evs' ++ evs).
    rewrite Hevs', Hevs. apply app_assoc.
  - now exists evs.
Qed.

Lemma grows_trace_try_except {A : Type} (m : M A) (h : exn -> M A) :
  grows_trace m -> (forall e, grows_trace (h e)) ->
  grows_trace (try_except m h).
Proof.
  intros Hm Hh st. unfold try_except. destruct (Hm st) as [evs Hevs].
  destruct (m st) as [[a|e] st1]; simpl in *.
  - now exists evs.
  - destruct (Hh e st1) as [evs' Hevs']. exists (evs' ++ evs).
    rewrite Hevs', Hevs. apply app_assoc.
Qed.

Lemma grows_trace_emit {A : Type} (a : A) (ev : event) :
  grows_trace (fun st => (Ok a, emit ev st)).
Proof. intros st. now exists [ev]. Qed.

Lemma grows_trace_ydl_download url opts :
  grows_trace (ydl_download env url opts).
Proof.
  intros st. unfold ydl_download. exists [EvEngine url opts].
  destruct (eo_error (engine env (engine_calls st))); reflexivity.
Qed.

Lemma grows_trace_os_listdir d : grows_trace (os_listdir d).
Proof.
  intros st. unfold os_listdir. exists [EvListdir d].
  destruct (fs_get d (fs st)); reflexivity.
Qed.

Lemma grows_trace_db_add_commit url fmt quality :
  grows_trace (db_add_commit env url fmt quality).
Proof.
  intros st. unfold db_add_commit.
  destruct (commit_error env (clock st)); [now exists [] | eexists [_]; reflexivity].
Qed.

Lemma grows_trace_send_file path name : grows_trace (send_file env path name).
Proof.
  intros st. unfold send_file.
  destruct (send_file_error env (clock st)); [now exists [] | eexists [_]; reflexivity].
Qed.

End Frames.

#[export] Hint Resolve keeps_db_ret keeps_db_raise keeps_db_lift
  keeps_db_bind keeps_db_try_except keeps_db_logging_warning
  keeps_db_logging_exception keeps_db_ydl_download keeps_db_os_listdir
  keeps_db_mkdtemp keeps_db_rmtree : frame.
#[export] Hint Resolve grows_trace_ret grows_trace_raise grows_trace_lift
  grows_trace_bind grows_trace_try_except grows_trace_emit
  grows_trace_ydl_download grows_trace_os_listdir
  grows_trace_db_add_commit grows_trace_send_file : frame.

(* ===================================================================== *)
(** ** The retry loop                                                    *)
(* ===================================================================== *)

Section RetryLoop.

Variable env : Env.
Variables (url : string) (opts : pydict).

(** The state right after one invocation of the engine. *)
Lemma ydl_download_trace (st : State) :
  trace (snd (ydl_download env url opts st)) = EvEngine url opts :: trace st.
Proof.
  unfold ydl_download.
  destruct (eo_error (engine env (engine_calls st))); reflexivity.
Qed.

Lemma ydl_download_result (st : State) :
  fst (ydl_download env url opts st) =
  match eo_error (engine env (engine_calls st)) with
  | Some e => Raise e
  | None => Ok tt
  end.
Proof.
  unfold ydl_download.
  destruct (eo_error (engine env (engine_calls st))); reflexivity.
Qed.

Lemma engine_calls_app (st st' : State) (evs : list event) :
  trace st' = evs ++ trace st ->
  engine_calls st' = length (filter is_engine evs) + engine_calls st.
Proof.
  unfold engine_calls. intros ->. now rewrite filter_app, length_app.
Qed.

Lemma listdir_calls_app (st st' : State) (evs : list event) :
  trace st' = evs ++ trace st ->
  listdir_calls st' = length (filter is_listdir evs) + listdir_calls st.
Proof.
  unfold listdir_calls. intros ->. now rewrite filter_app, length_app.
Qed.

(** An attempt on which the engine returns normally ends the loop. *)
Lemma for_attempts_success (retries attempt : nat) (rest : list nat)
  (st : State) :
  eo_error (engine env (engine_calls st)) = None ->
  for_attempts env retries url opts (attempt :: rest) st =
  (Ok tt, snd (ydl_download env url opts st)).
Proof.
  intros H. simpl. unfold bind, attempt_body, try_except, bind, ydl_download.
  rewrite H. reflexivity.
Qed.

(** An attempt on which the engine raises logs a warning; the last
    permitted attempt re-raises, any other one goes on with the next. *)
Lemma for_attempts_failure (retries attempt : nat) (rest : list nat)
  (st : State) (e : exn) :
  eo_error (engine env (engine_calls st)) = Some e ->
  let st1 := emit (EvWarning ("Attempt " ++ PyStr.str_of_nat (attempt + 1)
                                ++ " failed: " ++ str_exn e))
                  (snd (ydl_download env url opts st)) in
  for_attempts env retries url opts (attempt :: rest) st =
  if Nat.eqb attempt (retries - 1) then (Raise e, st1)
  else for_attempts env retries url opts rest st1.
Proof.
  intros H. simpl.
  unfold bind, attempt_body, try_except, bind, ydl_download, logging_warning.
  rewrite H. simpl. destruct (Nat.eqb attempt (retries - 1)); reflexivity.
Qed.

(** When the engine raises on each of the [S n] attempts that remain,
    the loop invokes it [S n] times, always with the same arguments,
    never lists a directory, and raises the error of the last attempt. *)
Lemma for_attempts_all_fail (retries : nat) :
  forall (n a : nat) (st : State),
    a + S n = retries ->
    (forall k, k <= n ->
               eo_error (engine env (engine_calls st + k)) <> None) ->
    exists e st' evs,
      for_attempts env retries url opts (seq a (S n)) st = (Raise e, st') /\
      eo_error (engine env (engine_calls st + n)) = Some e /\
      trace st' = evs ++ trace st /\
      filter is_engine evs = repeat (EvEngine url opts) (S n) /\
      filter is_listdir evs = [] /\
      db st' = db st.
Proof.
  induction n as [|n IH]; intros a st Hr Hall.
  - destruct (eo_error (engine env (engine_calls st))) as [e|] eqn:E.
    2:{ exfalso. apply (Hall 0); [lia|]. now rewrite Nat.add_0_r. }
    pose proof (for_attempts_failure retries a [] st e E) as Hstep.
    replace (Nat.eqb a (retries - 1)) with true in Hstep
      by (symmetry; apply Nat.eqb_eq; lia).
    cbv zeta in Hstep.
    do 2 eexists.
    exists [EvWarning ("Attempt " ++ PyStr.str_of_nat (a + 1)
                         ++ " failed: " ++ str_exn e);
            EvEngine url opts].
    split; [exact Hstep|]. rewrite Nat.add_0_r.
    repeat split; auto; simpl.
    + now rewrite ydl_download_trace.
    + apply keeps_db_ydl_download.
  - destruct (eo_error (engine env (engine_calls st))) as [e0|] eqn:E.
    2:{ exfalso. apply (Hall 0); [lia|]. now rewrite Nat.add_0_r. }
    pose proof (for_attempts_failure retries a (seq (S a) (S n)) st e0 E)
      as Hstep.
    replace (Nat.eqb a (retries - 1)) with false in Hstep
      by (symmetry; apply Nat.eqb_neq; lia).
    cbv zeta in Hstep.
    set (st1 := emit _ _) in Hstep.
    assert (Ht1 : trace st1 = [EvWarning ("Attempt " ++ PyStr.str_of_nat (a + 1)
                                  ++ " failed: " ++ str_exn e0);
                               EvEngine url opts] ++ trace st).
    { subst st1. simpl. now rewrite ydl_download_trace. }
    assert (Hc1 : engine_calls st1 = S (engine_calls st)).
    { now rewrite (engine_calls_app st st1 _ Ht1). }
    destruct (IH (S a) st1) as (e & st' & evs & Hrun & He & Ht & Hf & Hl & Hd).
    + lia.
    + intros k Hk. rewrite Hc1.
      replace (S (engine_calls st) + k) with (engine_calls st + S k) by lia.
      apply Hall. lia.
    + exists e, st', (evs ++ [EvWarning ("Attempt " ++ PyStr.str_of_nat (a + 1)
                                  ++ " failed: " ++ str_exn e0);
                               EvEngine url opts]).
      change (seq a (S (S n))) with (a :: seq (S a) (S n)).
      rewrite Hstep, Hrun. split; [reflexivity|].
      rewrite Hc1 in He.
      replace (engine_calls st + S n) with (S (engine_calls st) + n) by lia.
      split; [exact He|]. split.
      * rewrite Ht, Ht1. now rewrite app_assoc.
      * rewrite !filter_app, Hf, Hl. simpl. split; [|split].
        -- change (EvEngine url opts :: repeat (EvEngine url opts) n
                     ++ [EvEngine url opts])
             with (repeat (EvEngine url opts) (S n) ++ [EvEngine url opts]).
           now rewrite <- repeat_cons.
        -- reflexivity.
        -- rewrite Hd. subst st1. simpl. apply keeps_db_ydl_download.
Qed.

End RetryLoop.

(* ===================================================================== *)
(** ** [download_single]                                                 *)
(* ===================================================================== *)

Section Orchestrator.

Variable env : Env.

Lemma keeps_db_for_attempts retries url opts attempts :
  keeps_db (for_attempts env retries url opts attempts).
Proof.
  induction attempts as [|a l IH]; simpl; auto with frame.
  apply keeps_db_bind.
  - unfold attempt_body. apply keeps_db_try_except; auto with frame.
    intros e. apply keeps_db_bind; auto with frame.
    intros _. destruct (Nat.eqb a (retries - 1)); auto with frame.
  - intros [|]; auto with frame.
Qed.

Lemma grows_trace_for_attempts retries url opts attempts :
  grows_trace (for_attempts env retries url opts attempts).
Proof.
  induction attempts as [|a l IH]; simpl; auto with frame.
  apply grows_trace_bind.
  - unfold attempt_body. apply grows_trace_try_except; auto with frame.
    intros e. apply grows_trace_bind.
    + unfold logging_warning. auto with frame.
    + intros _. destruct (Nat.eqb a (retries - 1)); auto with frame.
  - intros [|]; auto with frame.
Qed.

Lemma keeps_db_download_single url fmt quality tpl :
  keeps_db (download_single env url fmt quality tpl).
Proof.
  unfold download_single, retry_loop.
  apply keeps_db_bind; auto with frame. intros opts.
  apply keeps_db_bind; [apply keeps_db_for_attempts|]. intros _.
  apply keeps_db_bind; auto with frame. intros entries.
  destruct (locate _ _ _ entries); auto with frame.
Qed.

Lemma grows_trace_download_single url fmt quality tpl :
  grows_trace (download_single env url fmt quality tpl).
Proof.
  unfold download_single, retry_loop.
  apply grows_trace_bind; auto with frame. intros opts.
  apply grows_trace_bind; [apply grows_trace_for_attempts|]. intros _.
  apply grows_trace_bind; auto with frame. intros entries.
  destruct (locate _ _ _ entries); auto with frame.
Qed.

Lemma get_ydl_opts_supported fmt quality tpl :
  supported fmt ->
  exists opts, get_ydl_opts fmt quality tpl = Ok opts /\
               outdir opts = PyStr.dirname tpl.
Proof.
  intros [-> | ->]; eexists; split; reflexivity.
Qed.

Lemma get_ydl_opts_ok_supported fmt quality tpl opts :
  get_ydl_opts fmt quality tpl = Ok opts -> supported fmt.
Proof.
  unfold get_ydl_opts, supported.
  destruct (String.eqb_spec fmt "mp4"); [now left|].
  destruct (String.eqb_spec fmt "mp3"); [now right|]. discriminate.
Qed.

(** The function, once the options are resolved: the loop, then the
    listing of the template's directory, then the scan. *)
Lemma download_single_resolved url fmt quality tpl opts st :
  get_ydl_opts fmt quality tpl = Ok opts ->
  download_single env url fmt quality tpl st =
  match retry_loop env MAX_DOWNLOAD_RETRIES url opts st with
  | (Ok _, st1) =>
      let d := PyStr.dirname tpl in
      match fs_get d (fs st1) with
      | Some entries =>
          match locate d (tpl_prefix tpl) fmt entries with
          | Some path => (Ok path, emit (EvListdir d) st1)
          | None =>
              (Raise (FileNotFoundError (not_found_msg fmt (tpl_prefix tpl))),
               emit (EvListdir d) st1)
          end
      | None =>
          (Raise (FileNotFoundError
                    ("[Errno 2] No such file or directory: '" ++ d ++ "'")),
           emit (EvListdir d) st1)
      end
  | (Raise e, st1) => (Raise e, st1)
  end.
Proof.
  intros H. unfold download_single, bind, lift. rewrite H.
  destruct (retry_loop env MAX_DOWNLOAD_RETRIES url opts st) as [[[]|e] st1];
    [|reflexivity].
  unfold os_listdir. cbv zeta.
  destruct (fs_get (PyStr.dirname tpl) (fs st1)) as [entries|]; [|reflexivity].
  destruct (locate _ _ _ entries); reflexivity.
Qed.

(** A path is returned only for a supported format, after a listing of
    the template's directory, and it is what the scan finds there. *)
Lemma download_single_ok url fmt quality tpl st path st' :
  download_single env url fmt quality tpl st = (Ok path, st') ->
  supported fmt /\
  exists entries,
    fs_get (PyStr.dirname tpl) (fs st') = Some entries /\
    locate (PyStr.dirname tpl) (tpl_prefix tpl) fmt entries = Some path.
Proof.
  intros H.
  destruct (get_ydl_opts fmt quality tpl) as [opts|e] eqn:O.
  - split; [eapply get_ydl_opts_ok_supported; eassumption|].
    rewrite (download_single_resolved _ _ _ _ _ _ O) in H.
    destruct (retry_loop env MAX_DOWNLOAD_RETRIES url opts st)
      as [[[]|e] st1]; [|discriminate].
    cbv zeta in H.
    destruct (fs_get (PyStr.dirname tpl) (fs st1)) as [entries|] eqn:F;
      [|discriminate].
    destruct (locate _ _ _ entries) as [p|] eqn:L; [|discriminate].
    injection H as <- <-. exists entries. split; assumption.
  - unfold download_single, bind, lift in H. rewrite O in H. discriminate.
Qed.

(** When the loop ends normally and the listing holds no entry that
    passes the test of the scan, [FileNotFoundError] is raised, with the
    format and the prefix in its message. *)
Lemma download_single_no_candidate url fmt quality tpl opts st st1 entries :
  get_ydl_opts fmt quality tpl = Ok opts ->
  retry_loop env MAX_DOWNLOAD_RETRIES url opts st = (Ok tt, st1) ->
  fs_get (PyStr.dirname tpl) (fs st1) = Some entries ->
  Forall (fun x => candidate (tpl_prefix tpl) fmt x = false) entries ->
  download_single env url fmt quality tpl st =
  (Raise (FileNotFoundError
            ("No ." ++ fmt ++ " file found for " ++ tpl_prefix tpl)),
   emit (EvListdir (PyStr.dirname tpl)) st1).
Proof.
  intros O R F C.
  rewrite (download_single_resolved _ _ _ _ _ _ O), R. cbv zeta.
  rewrite F.
  rewrite (proj2 (locate_none (PyStr.dirname tpl) _ _ _) C). reflexivity.
Qed.

End Orchestrator.

(* ===================================================================== *)
(** ** Properties of the orchestrator                                    *)
(* ===================================================================== *)

(** C1. For a format that is neither ['mp4'] nor ['mp3'],
    [download_single] raises [ValueError] ("Unsupported format") while
    resolving the options: the world is left exactly as it was, so the
    engine has not been invoked and no directory has been listed. *)
Theorem unsupported_format_fails_first
  (env : Env) (url fmt quality tpl : string) (st : State) :
  fmt <> "mp4" -> fmt <> "mp3" ->
  download_single env url fmt quality tpl st =
    (Raise (ValueError ("Unsupported format: " ++ fmt)), st) /\
  engine_calls (snd (download_single env url fmt quality tpl st)) =
    engine_calls st /\
  listdir_calls (snd (download_single env url fmt quality tpl st)) =
    listdir_calls st.
Proof.
  intros H4 H3.
  assert (E : download_single env url fmt quality tpl st =
              (Raise (ValueError ("Unsupported format: " ++ fmt)), st)).
  { unfold download_single, bind, lift, get_ydl_opts.
    destruct (String.eqb_spec fmt "mp4"); [contradiction|].
    destruct (String.eqb_spec fmt "mp3"); [contradiction|].
    reflexivity. }
  rewrite E. auto.
Qed.

Lemma unsupported_format_fails_first_witness :
  download_single (scripted [writes ["dl.wav"]] false)
    "https://x/video" "wav" "best" scratch_tpl scratch_state =
    (Raise (ValueError "Unsupported format: wav"), scratch_state).
Proof.
  apply (unsupported_format_fails_first
           (scripted [writes ["dl.wav"]] false)
           "https://x/video" "wav" "best" scratch_tpl scratch_state);
    discriminate.
Defined.

(** C2. When the engine raises on every attempt, [download_single]
    invokes it exactly [MAX_DOWNLOAD_RETRIES] (2) times, each time with
    the same url and options, lists no directory, and raises the error of
    the last attempt. *)
Theorem engine_exhausted
  (env : Env) (url fmt quality tpl : string) (st : State) :
  supported fmt ->
  (forall k, k < MAX_DOWNLOAD_RETRIES ->
             eo_error (engine env (engine_calls st + k)) <> None) ->
  exists e st' opts evs,
    download_single env url fmt quality tpl st = (Raise e, st') /\
    eo_error (engine env (engine_calls st + (MAX_DOWNLOAD_RETRIES - 1)))
      = Some e /\
    get_ydl_opts fmt quality tpl = Ok opts /\
    trace st' = evs ++ trace st /\
    filter is_engine evs = repeat (EvEngine url opts) MAX_DOWNLOAD_RETRIES /\
    engine_calls st' = engine_calls st + MAX_DOWNLOAD_RETRIES /\
    listdir_calls st' = listdir_calls st.
Proof.
  intros Hs Hall.
  destruct (get_ydl_opts_supported fmt quality tpl Hs) as (opts & O & _).
  destruct (for_attempts_all_fail env url opts MAX_DOWNLOAD_RETRIES
              (MAX_DOWNLOAD_RETRIES - 1) 0 st)
    as (e & st' & evs & Hrun & He & Ht & Hf & Hl & _).
  - reflexivity.
  - intros k Hk. apply Hall. unfold MAX_DOWNLOAD_RETRIES in *. lia.
  - exists e, st', opts, evs.
    rewrite (download_single_resolved env _ _ _ _ _ _ O).
    unfold retry_loop, range.
    change (seq 0 MAX_DOWNLOAD_RETRIES)
      with (seq 0 (S (MAX_DOWNLOAD_RETRIES - 1))).
    rewrite Hrun. repeat split; auto.
    + rewrite (engine_calls_app st st' evs Ht), Hf, repeat_length.
      apply Nat.add_comm.
    + rewrite (listdir_calls_app st st' evs Ht), Hl. reflexivity.
Qed.

Lemma engine_exhausted_witness :
  exists e st' opts evs,
    download_single (scripted [fails "boom"; fails "bam"] false)
      "https://x/video" "mp3" "best" scratch_tpl scratch_state
      = (Raise e, st') /\
    eo_error (engine (scripted [fails "boom"; fails "bam"] false)
                (engine_calls scratch_state + (MAX_DOWNLOAD_RETRIES - 1)))
      = Some e /\
    get_ydl_opts "mp3" "best" scratch_tpl = Ok opts /\
    trace st' = evs ++ trace scratch_state /\
    filter is_engine evs
      = repeat (EvEngine "https://x/video" opts) MAX_DOWNLOAD_RETRIES /\
    engine_calls st' = engine_calls scratch_state + MAX_DOWNLOAD_RETRIES /\
    listdir_calls st' = listdir_calls scratch_state.
Proof.
  apply (engine_exhausted (scripted [fails "boom"; fails "bam"] false)
           "https://x/video" "mp3" "best" scratch_tpl scratch_state).
  - right. reflexivity.
  - intros k Hk. unfold MAX_DOWNLOAD_RETRIES in Hk.
    destruct k as [|[|k]]; simpl; [discriminate | discriminate | lia].
Defined.

(** C3. When the engine returns normally on the first attempt,
    [download_single] invokes it exactly once: the loop is left at once
    and the only other effect is the listing of the directory. *)
Theorem first_attempt_success_single_call
  (env : Env) (url fmt quality tpl : string) (st : State) :
  supported fmt ->
  eo_error (engine env (engine_calls st)) = None ->
  exists opts,
    get_ydl_opts fmt quality tpl = Ok opts /\
    trace (snd (download_single env url fmt quality tpl st)) =
      [EvListdir (PyStr.dirname tpl); EvEngine url opts] ++ trace st /\
    engine_calls (snd (download_single env url fmt quality tpl st)) =
      engine_calls st + 1.
Proof.
  intros Hs Hok.
  destruct (get_ydl_opts_supported fmt quality tpl Hs) as (opts & O & _).
  exists opts. split; [exact O|].
  assert (T : trace (snd (download_single env url fmt quality tpl st)) =
              [EvListdir (PyStr.dirname tpl); EvEngine url opts] ++ trace st).
  { rewrite (download_single_resolved env _ _ _ _ _ _ O).
    unfold retry_loop, range. simpl seq.
    rewrite (for_attempts_success env url opts _ 0 [1] st Hok). cbv zeta.
    destruct (fs_get _ _) as [entries|];
      [destruct (locate _ _ _ entries)|];
      simpl; now rewrite ydl_download_trace. }
  split; [exact T|].
  rewrite (engine_calls_app _ _ _ T). simpl. lia.
Qed.

Lemma first_attempt_success_single_call_witness :
  exists opts,
    get_ydl_opts "mp4" "best" scratch_tpl = Ok opts /\
    trace (snd (download_single (scripted [writes ["dl.mp4"]] false)
                  "https://x/video" "mp4" "best" scratch_tpl scratch_state)) =
      [EvListdir (PyStr.dirname scratch_tpl); EvEngine "https://x/video" opts]
        ++ trace scratch_state /\
    engine_calls
      (snd (download_single (scripted [writes ["dl.mp4"]] false)
              "https://x/video" "mp4" "best" scratch_tpl scratch_state)) =
      engine_calls scratch_state + 1.
Proof.
  apply (first_attempt_success_single_call
           (scripted [writes ["dl.mp4"]] false)
           "https://x/video" "mp4" "best" scratch_tpl scratch_state).
  - left. reflexivity.
  - reflexivity.
Defined.

(** C7. The resolved options do not depend on the quality hint: for any
    format and template, two quality values give the same result.  For
    ['mp3'] the options hold one post-processor, the audio extraction to
    mp3 at the fixed quality ['192']. *)
Theorem get_ydl_opts_ignores_quality :
  (forall fmt q1 q2 tpl,
     get_ydl_opts fmt q1 tpl = get_ydl_opts fmt q2 tpl) /\
  (forall q tpl,
     exists opts pp,
       get_ydl_opts "mp3" q tpl = Ok opts /\
       dict_get "postprocessors" opts = Some (PList [PDict pp]) /\
       dict_get "key" pp = Some (PStr "FFmpegExtractAudio") /\
       dict_get "preferredcodec" pp = Some (PStr "mp3") /\
       dict_get "preferredquality" pp = Some (PStr "192")).
Proof.
  split.
  - intros fmt q1 q2 tpl. reflexivity.
  - intros q tpl. do 2 eexists. repeat split.
Qed.

(** The scan returns the first entry, in listing order, whose name starts
    with the prefix and whose lower-cased name ends with the format
    string; the path is that entry joined to the template's directory. *)
Lemma download_single_first_candidate
  (env : Env) (url fmt quality tpl : string) (st st' : State)
  (path : string) :
  download_single env url fmt quality tpl st = (Ok path, st') ->
  exists entries pre fname post,
    fs_get (PyStr.dirname tpl) (fs st') = Some entries /\
    entries = pre ++ fname :: post /\
    Forall (fun x => candidate (tpl_prefix tpl) fmt x = false) pre /\
    PyStr.startswith fname (tpl_prefix tpl) = true /\
    (exists stem, PyStr.lower fname = (stem ++ fmt)%string) /\
    path = PyStr.join (PyStr.dirname tpl) fname.
Proof.
  intros H. apply download_single_ok in H.
  destruct H as (_ & entries & F & L).
  apply locate_some in L.
  destruct L as (pre & fname & post & -> & Hpre & Hc & ->).
  unfold candidate in Hc. apply andb_true_iff in Hc. destruct Hc as [Hp He].
  exists (pre ++ fname :: post), pre, fname, post.
  repeat split; auto. now apply endswith_iff.
Qed.

(** C4. With the listing [dlmp4; dl.mp4] and format ['mp4'], the scan
    returns the entry [dlmp4], a name without any extension, although
    the first entry whose extension is [mp4] is [dl.mp4]: the test
    [fname.lower().endswith(fmt)] looks for the bare format string, not
    for the extension [.mp4] that the function's own error message
    names. *)
Theorem scan_takes_name_without_extension :
  fst (download_single (scripted [writes ["dlmp4"; "dl.mp4"]] false)
         "https://x/video" "mp4" "best" scratch_tpl scratch_state)
    = Ok "/tmp/tmpab12/dlmp4" /\
  extension (PyStr.lower "dlmp4") = None /\
  spec_locate (PyStr.dirname scratch_tpl) (tpl_prefix scratch_tpl) "mp4"
    ["dlmp4"; "dl.mp4"] = Some "/tmp/tmpab12/dl.mp4".
Proof. repeat split. Qed.

(** C5. With the single entry [dlmp3] and format ['mp3'], no entry of
    the directory has the extension [mp3], yet [download_single] returns
    the path of [dlmp3] instead of raising [FileNotFoundError]. *)
Theorem no_extension_match_yet_no_error :
  spec_locate (PyStr.dirname scratch_tpl) (tpl_prefix scratch_tpl) "mp3"
    ["dlmp3"] = None /\
  fst (download_single (scripted [writes ["dlmp3"]] false)
         "https://x/video" "mp3" "best" scratch_tpl scratch_state)
    = Ok "/tmp/tmpab12/dlmp3".
Proof. split; reflexivity. Qed.

(** Scenario E: the engine returns normally but leaves only [dl.part];
    the failure names the format and the prefix. *)
Example scenario_E :
  fst (download_single (scripted [writes ["dl.part"]] false)
         "https://x/video" "mp3" "best" scratch_tpl scratch_state)
    = Raise (FileNotFoundError "No .mp3 file found for dl").
Proof. reflexivity. Qed.

(** Scenario A: the first attempt produces [dl.mp4]. *)
Example scenario_A :
  fst (download_single (scripted [writes ["dl.mp4"]] false)
         "https://x/video" "mp4" "best" scratch_tpl scratch_state)
    = Ok "/tmp/tmpab12/dl.mp4".
Proof. reflexivity. Qed.

(** Scenario B: the second attempt succeeds; one warning is logged. *)
Example scenario_B :
  let run := download_single (scripted [fails "boom"; writes ["dl.mp3"]] false)
               "https://x/video" "mp3" "best" scratch_tpl scratch_state in
  fst run = Ok "/tmp/tmpab12/dl.mp3" /\
  filter (fun ev => match ev with EvWarning _ => true | _ => false end)
    (trace (snd run)) = [EvWarning "Attempt 1 failed: boom"].
Proof. split; reflexivity. Qed.

(** The extension is matched whatever its case. *)
Example upper_case_extension :
  fst (download_single (scripted [writes ["dl.part"; "dl.MP4"]] false)
         "https://x/video" "mp4" "best" scratch_tpl scratch_state)
    = Ok "/tmp/tmpab12/dl.MP4".
Proof. reflexivity. Qed.

(* ===================================================================== *)
(** ** The download endpoint                                             *)
(* ===================================================================== *)

Lemma fs_get_remove (d : string) (f : list (string * list string)) :
  fs_get d (fs_remove d f) = None.
Proof.
  unfold fs_get, fs_remove.
  induction f as [|[k l] f IH]; simpl; [reflexivity|].
  destruct (String.eqb k d) eqn:E; simpl; [exact IH|].
  rewrite E. exact IH.
Qed.

Lemma fs_remove_idempotent (d : string) (f : list (string * list string)) :
  fs_remove d (fs_remove d f) = fs_remove d f.
Proof.
  unfold fs_remove. induction f as [|[k l] f IH]; simpl; [reflexivity|].
  destruct (String.eqb k d) eqn:E; simpl; [exact IH|].
  rewrite E. simpl. now rewrite IH.
Qed.

Section Endpoint.

Variable env : Env.

(** The removal never raises, so [finally] keeps the outcome of the
    block it guards. *)
Lemma try_finally_rmtree {A : Type} (body : M A) (d : string) (st : State) :
  try_finally body (rmtree_ignore_errors env d) st =
  (fst (body st), snd (rmtree_ignore_errors env d (snd (body st)))).
Proof.
  unfold try_finally. destruct (body st) as [r st1]. reflexivity.
Qed.

Lemma rmtree_never_raises (d : string) (st : State) :
  fst (rmtree_ignore_errors env d st) = Ok tt.
Proof. reflexivity. Qed.

Lemma download_get_accepted req st url fmt quality :
  accepted env req = Some (url, fmt, quality) ->
  download_get env req st =
  try_finally (guarded env url fmt quality (request_tmp env st))
              (rmtree_ignore_errors env (request_tmp env st))
              (snd (mkdtemp env st)).
Proof.
  unfold accepted, download_get, require_api_key, download_get_view.
  change (match authorization req with Some a => a | None => "" end)
    with (arg_value (authorization req)).
  destruct (String.eqb (arg_value (authorization req)) (bearer env));
    [|discriminate].
  destruct (truthy (args_get "url" (args req))); [|discriminate].
  destruct (truthy (args_get "format" (args req))); [|discriminate].
  simpl. intros [= <- <- <-]. reflexivity.
Qed.

Lemma download_get_rejected req st :
  accepted env req = None ->
  (download_get env req st =
     (Ok (JsonResponse (jsonify_error "Unauthorized") 401), st)) \/
  (download_get env req st =
     (Ok (JsonResponse (jsonify_error "Missing url or format") 400), st)).
Proof.
  unfold accepted, download_get, require_api_key, download_get_view.
  change (match authorization req with Some a => a | None => "" end)
    with (arg_value (authorization req)).
  destruct (String.eqb (arg_value (authorization req)) (bearer env));
    [|intros _; now left].
  destruct (truthy (args_get "url" (args req)));
    [|intros _; now right].
  destruct (truthy (args_get "format" (args req)));
    [discriminate | intros _; now right].
Qed.

(** The [try] block, case by case. *)
Lemma download_get_try_raise url fmt quality tmp st e st2 :
  download_single env url fmt quality (PyStr.join tmp "dl.%(ext)s") st
    = (Raise e, st2) ->
  download_get_try env url fmt quality tmp st = (Raise e, st2).
Proof. intros H. unfold download_get_try, bind. now rewrite H. Qed.

Lemma download_get_try_ok url fmt quality tmp st path st2 :
  download_single env url fmt quality (PyStr.join tmp "dl.%(ext)s") st
    = (Ok path, st2) ->
  download_get_try env url fmt quality tmp st =
  match commit_error env (clock st2) with
  | Some e => (Raise e, st2)
  | None =>
      send_file env path ("JustPaste." ++ fmt)
        (snd (db_add_commit env url fmt quality st2))
  end.
Proof.
  intros H. unfold download_get_try, bind. rewrite H.
  unfold db_add_commit. destruct (commit_error env (clock st2)); reflexivity.
Qed.

(** The [except] block turns any exception into the 500 response. *)
Lemma guarded_raise url fmt quality tmp st e st2 :
  download_get_try env url fmt quality tmp st = (Raise e, st2) ->
  guarded env url fmt quality tmp st =
  (Ok (JsonResponse (jsonify_error (str_exn e)) 500),
   emit (EvException "Download error") st2).
Proof.
  intros H. unfold guarded, try_except. rewrite H. reflexivity.
Qed.

Lemma guarded_ok url fmt quality tmp st r st2 :
  download_get_try env url fmt quality tmp st = (Ok r, st2) ->
  guarded env url fmt quality tmp st = (Ok r, st2).
Proof.
  intros H. unfold guarded, try_except. rewrite H. reflexivity.
Qed.

Lemma guarded_returns url fmt quality tmp st :
  exists r, fst (guarded env url fmt quality tmp st) = Ok r.
Proof.
  destruct (download_get_try env url fmt quality tmp st) as [[r|e] st2] eqn:T.
  - rewrite (guarded_ok _ _ _ _ _ _ _ T). now exists r.
  - rewrite (guarded_raise _ _ _ _ _ _ _ T). eexists. reflexivity.
Qed.

Lemma grows_trace_guarded url fmt quality tmp :
  grows_trace (guarded env url fmt quality tmp).
Proof.
  unfold guarded, download_get_try, download_get_except.
  apply grows_trace_try_except.
  - apply grows_trace_bind; [apply grows_trace_download_single|].
    intros path. auto with frame.
  - intros e. apply grows_trace_bind; [|auto with frame].
    unfold logging_exception. auto with frame.
Qed.

End Endpoint.

(* ===================================================================== *)
(** ** The removal oracle has no say in what happens before it           *)
(* ===================================================================== *)

Section RemovalOracle.

Variable env : Env.
Variable f : nat -> bool.

Lemma for_attempts_rmtree_oracle retries url opts attempts st :
  for_attempts (with_rmtree_fails f env) retries url opts attempts st =
  for_attempts env retries url opts attempts st.
Proof.
  revert st. induction attempts as [|a l IH]; intros st; [reflexivity|].
  simpl. unfold bind.
  change (attempt_body (with_rmtree_fails f env) retries url opts a st)
    with (attempt_body env retries url opts a st).
  destruct (attempt_body env retries url opts a st) as [[[|]|e] st1];
    [reflexivity | apply IH | reflexivity].
Qed.

Lemma download_single_rmtree_oracle url fmt quality tpl st :
  download_single (with_rmtree_fails f env) url fmt quality tpl st =
  download_single env url fmt quality tpl st.
Proof.
  unfold download_single, retry_loop, bind, lift.
  destruct (get_ydl_opts fmt quality tpl) as [opts|e]; [|reflexivity].
  rewrite for_attempts_rmtree_oracle. reflexivity.
Qed.

Lemma guarded_rmtree_oracle url fmt quality tmp st :
  guarded (with_rmtree_fails f env) url fmt quality tmp st =
  guarded env url fmt quality tmp st.
Proof.
  unfold guarded, try_except, download_get_try, bind.
  rewrite download_single_rmtree_oracle. reflexivity.
Qed.

End RemovalOracle.

(* ===================================================================== *)
(** ** Properties of the download endpoint                               *)
(* ===================================================================== *)

(** A request whose two engine attempts fail is answered, and leaves the
    history table empty: not every handled request is recorded. *)
Lemma failed_request_not_recorded :
  ~ recorded (scripted [fails "boom"; fails "bam"] false)
      (request "mp3") empty_state.
Proof.
  intros (row & H & _). vm_compute in H. discriminate H.
Qed.

(** C6, as the code has it.  A request is recorded when, and only when,
    it is accepted, [download_single] returns a path and the commit goes
    through: then exactly one row is appended, with the request's url,
    format and quality.  A rejected request, a failure of the
    orchestrator or a failed commit leave the table as it was. *)
Theorem history_records_completed_downloads
  (env : Env) (req : Request) (st : State) :
  let st' := snd (download_get env req st) in
  match accepted env req with
  | None => db st' = db st
  | Some (url, fmt, quality) =>
      match download_single env url fmt quality (request_tpl env st)
              (snd (mkdtemp env st)) with
      | (Raise _, _) => db st' = db st
      | (Ok _, st2) =>
          match commit_error env (clock st2) with
          | Some _ => db st' = db st
          | None =>
              db st' =
              db st ++ [DownloadHistory.mk (DownloadHistory.next_id (db st))
                          url fmt quality (utcnow env (clock st2))]
          end
      end
  end.
Proof.
  cbv zeta.
  destruct (accepted env req) as [[[url fmt] quality]|] eqn:A.
  - rewrite (download_get_accepted env req st url fmt quality A).
    rewrite try_finally_rmtree. cbn [snd].
    rewrite keeps_db_rmtree.
    pose proof (keeps_db_download_single env url fmt quality
                  (request_tpl env st) (snd (mkdtemp env st))) as Hdb.
    rewrite keeps_db_mkdtemp in Hdb.
    unfold request_tpl in *.
    destruct (download_single env url fmt quality
                (PyStr.join (request_tmp env st) "dl.%(ext)s")
                (snd (mkdtemp env st))) as [[path|e] st2] eqn:D;
      cbn [snd] in Hdb.
    + pose proof (download_get_try_ok env _ _ _ _ _ _ _ D) as T.
      destruct (commit_error env (clock st2)) as [e|] eqn:C.
      * rewrite (guarded_raise env _ _ _ _ _ _ _ T). exact Hdb.
      * unfold db_add_commit, send_file in T. rewrite C in T. cbn [snd] in T.
        match type of T with
        | _ = match ?c with _ => _ end => destruct c
        end.
        -- rewrite (guarded_raise env _ _ _ _ _ _ _ T). simpl.
           now rewrite Hdb.
        -- rewrite (guarded_ok env _ _ _ _ _ _ _ T). simpl.
           now rewrite Hdb.
    + pose proof (download_get_try_raise env _ _ _ _ _ _ _ D) as T.
      rewrite (guarded_raise env _ _ _ _ _ _ _ T). exact Hdb.
  - destruct (download_get_rejected env req st A) as [-> | ->]; reflexivity.
Qed.

(** C8.  The endpoint always answers.  A rejected request creates no
    scratch directory; for every accepted request the last effect is the
    removal of the scratch directory created at its start, whatever
    happened in between, and the directory is gone unless the operating
    system refused the removal.  The answer does not depend on whether
    removals are refused, and removing any directory once more after the
    endpoint neither raises nor changes the answer. *)
Theorem scratch_directory_removed_on_every_path
  (env : Env) (req : Request) (st : State) :
  (exists r, fst (download_get env req st) = Ok r) /\
  match accepted env req with
  | None => snd (download_get env req st) = st
  | Some _ =>
      let tmp := request_tmp env st in
      let st' := snd (download_get env req st) in
      exists evs,
        trace st' = EvRmtree tmp :: evs ++ EvMkdtemp tmp :: trace st /\
        (rmtree_fails env (length evs + S (clock st)) = false ->
         fs_get tmp (fs st') = None)
  end /\
  (forall f,
     fst (download_get (with_rmtree_fails f env) req st) =
     fst (download_get env req st)) /\
  (forall d,
     fst (download_get_then_rmtree env d req st) =
     fst (download_get env req st)).
Proof.
  destruct (accepted env req) as [[[url fmt] quality]|] eqn:A.
  - pose proof (download_get_accepted env req st url fmt quality A) as E.
    rewrite try_finally_rmtree in E.
    destruct (guarded_returns env url fmt quality (request_tmp env st)
                (snd (mkdtemp env st))) as [r Hr].
    repeat split.
    + exists r. rewrite E. exact Hr.
    + cbv zeta. rewrite E. cbn [snd].
      destruct (grows_trace_guarded env url fmt quality (request_tmp env st)
                  (snd (mkdtemp env st))) as [evs Hevs].
      exists evs. split.
      * unfold rmtree_ignore_errors. cbn [snd trace].
        rewrite Hevs. reflexivity.
      * intros Hf. unfold rmtree_ignore_errors. cbn [snd fs].
        unfold clock at 1. rewrite Hevs, length_app. simpl length.
        fold (clock st). rewrite Hf. apply fs_get_remove.
    + intros f.
      assert (A' : accepted (with_rmtree_fails f env) req
                   = Some (url, fmt, quality)) by exact A.
      rewrite (download_get_accepted _ req st url fmt quality A'), E.
      rewrite try_finally_rmtree. cbn [fst].
      change (request_tmp (with_rmtree_fails f env) st)
        with (request_tmp env st).
      change (mkdtemp (with_rmtree_fails f env) st) with (mkdtemp env st).
      now rewrite guarded_rmtree_oracle.
    + intros d. unfold download_get_then_rmtree, bind. rewrite E.
      rewrite Hr. reflexivity.
  - assert (R : exists r, download_get env req st = (Ok r, st)).
    { destruct (download_get_rejected env req st A) as [-> | ->];
        eexists; reflexivity. }
    destruct R as [r R].
    repeat split.
    + exists r. now rewrite R.
    + now rewrite R.
    + intros f. clear R.
      unfold download_get, require_api_key, download_get_view.
      unfold accepted in A.
      change (bearer (with_rmtree_fails f env)) with (bearer env).
      change (match authorization req with Some a => a | None => "" end)
        with (arg_value (authorization req)).
      destruct (String.eqb (arg_value (authorization req)) (bearer env));
        [|reflexivity].
      destruct (truthy (args_get "url" (args req))); [|reflexivity].
      destruct (truthy (args_get "format" (args req)));
        [discriminate | reflexivity].
    + intros d. unfold download_get_then_rmtree, bind. rewrite R. reflexivity.
Qed.

(** C10.  When [download_single] raises inside an accepted request, be
    it the [ValueError] of an unsupported format, the error of the last
    engine attempt or the [FileNotFoundError] of the scan, the endpoint
    answers with status 500 and the JSON body [{'error': str(e)}]. *)
Theorem orchestrator_failure_is_500
  (env : Env) (req : Request) (st : State)
  (url fmt quality : string) (e : exn) (st2 : State) :
  accepted env req = Some (url, fmt, quality) ->
  download_single env url fmt quality (request_tpl env st)
    (snd (mkdtemp env st)) = (Raise e, st2) ->
  fst (download_get env req st) =
  Ok (JsonResponse (PDict [("error", PStr (str_exn e))]) 500).
Proof.
  intros A D.
  rewrite (download_get_accepted env req st url fmt quality A).
  rewrite try_finally_rmtree. cbn [fst].
  pose proof (download_get_try_raise env _ _ _ _ _ _ _ D) as T.
  rewrite (guarded_raise env _ _ _ _ _ _ _ T). reflexivity.
Qed.

Lemma orchestrator_failure_is_500_witness :
  fst (download_get (scripted [writes ["dl.part"]] false) (request "mp3")
         empty_state) =
  Ok (JsonResponse (PDict [("error", PStr "No .mp3 file found for dl")]) 500).
Proof.
  apply (orchestrator_failure_is_500
           (scripted [writes ["dl.part"]] false) (request "mp3") empty_state
           "https://x/video" "mp3" "best"
           (FileNotFoundError "No .mp3 file found for dl")
           (snd (download_single (scripted [writes ["dl.part"]] false)
                   "https://x/video" "mp3" "best"
                   (request_tpl (scripted [writes ["dl.part"]] false)
                      empty_state)
                   (snd (mkdtemp (scripted [writes ["dl.part"]] false)
                           empty_state)))));
    reflexivity.
Defined.

(** The three failures of the orchestrator get the same status. *)
Example unsupported_format_is_500 :
  fst (download_get (scripted [] false) (request "wav") empty_state) =
  Ok (JsonResponse (PDict [("error", PStr "Unsupported format: wav")]) 500).
Proof. reflexivity. Qed.

Example engine_exhausted_is_500 :
  fst (download_get (scripted [fails "boom"; fails "bam"] false)
         (request "mp4") empty_state) =
  Ok (JsonResponse (PDict [("error", PStr "bam")]) 500).
Proof. reflexivity. Qed.

(** Scenario D: both attempts fail; the scratch directory is created,
    and removed afterwards. *)
Example scenario_D :
  let st' := snd (download_get (scripted [fails "boom"; fails "bam"] false)
                    (request "mp3") empty_state) in
  hd_error (trace st') = Some (EvRmtree "/tmp/tmpab12") /\
  In (EvMkdtemp "/tmp/tmpab12") (trace st') /\
  fs_get "/tmp/tmpab12" (fs st') = None.
Proof. vm_compute. repeat split. tauto. Qed.

(** A refused removal leaves the directory behind and the answer as it
    is. *)
Example refused_removal :
  let run := download_get (scripted [writes ["dl.mp4"]] true)
               (request "mp4") empty_state in
  fst run = Ok (FileResponse "/tmp/tmpab12/dl.mp4" true "JustPaste.mp4") /\
  fs_get "/tmp/tmpab12" (fs (snd run)) = Some ["dl.mp4"].
Proof. split; reflexivity. Qed.

(** A completed download is recorded once. *)
Example completed_download_recorded :
  recorded (scripted [writes ["dl.mp4"]] false) (request "mp4") empty_state.
Proof. eexists. repeat split. Qed.

(* ===================================================================== *)
(** ** The history endpoint                                              *)
(* ===================================================================== *)

Section Ordering.

Import DownloadHistory.

Lemma insert_desc_perm (r : t) (rows : list t) :
  Permutation (r :: rows) (insert_desc r rows).
Proof.
  induction rows as [|r' rest IH]; simpl; [apply Permutation_refl|].
  destruct (Z.leb (timestamp r') (timestamp r)); [apply Permutation_refl|].
  eapply perm_trans; [apply perm_swap|]. now apply perm_skip.
Qed.

Lemma order_by_timestamp_desc_perm (rows : list t) :
  Permutation rows (order_by_timestamp_desc rows).
Proof.
  induction rows as [|r rest IH]; simpl; [constructor|].
  eapply perm_trans; [apply perm_skip, IH | apply insert_desc_perm].
Qed.

Lemma insert_desc_hd (r x : t) (rows : list t) :
  newer_first x r -> HdRel newer_first x rows ->
  HdRel newer_first x (insert_desc r rows).
Proof.
  intros Hr Hh. destruct rows as [|r' rest]; simpl.
  - now constructor.
  - destruct (Z.leb (timestamp r') (timestamp r)); constructor; auto.
    now inversion Hh.
Qed.

Lemma insert_desc_sorted (r : t) (rows : list t) :
  Sorted newer_first rows -> Sorted newer_first (insert_desc r rows).
Proof.
  induction 1 as [|r' rest Hs IH Hh]; simpl.
  - repeat constructor.
  - destruct (Z.leb_spec (timestamp r') (timestamp r)) as [L|L].
    + constructor; [now constructor | now constructor].
    + constructor; [exact IH|].
      apply insert_desc_hd; [|exact Hh]. unfold newer_first. lia.
Qed.

Lemma order_by_timestamp_desc_sorted (rows : list t) :
  Sorted newer_first (order_by_timestamp_desc rows).
Proof.
  induction rows as [|r rest IH]; simpl; [constructor|].
  now apply insert_desc_sorted.
Qed.

Lemma newer_first_trans (a b c : t) :
  newer_first a b -> newer_first b c -> newer_first a c.
Proof. unfold newer_first. lia. Qed.

End Ordering.

(** C9.  For a request that carries the bearer token, the history
    endpoint answers 200 with the JSON list of all the rows of the table,
    each through [as_dict], in descending order of their timestamps; the
    table itself is left as it is. *)
Theorem history_newest_first (env : Env) (req : Request) (st : State) :
  authorized env req ->
  exists recs,
    history env req st =
      (Ok (JsonResponse
             (PList (map (fun r => PDict (DownloadHistory.as_dict
                                            (isoformat env) r)) recs))
             200),
       st) /\
    Permutation (db st) recs /\
    StronglySorted newer_first recs.
Proof.
  intros A. exists (DownloadHistory.order_by_timestamp_desc (db st)).
  split; [|split].
  - unfold history, require_api_key. unfold authorized in A. rewrite A.
    rewrite String.eqb_refl. reflexivity.
  - apply order_by_timestamp_desc_perm.
  - apply Sorted_StronglySorted.
    + intros a b c. apply newer_first_trans.
    + apply order_by_timestamp_desc_sorted.
Qed.

Lemma history_newest_first_witness :
  exists recs,
    history (scripted [] false) (request "mp4") history_state =
      (Ok (JsonResponse
             (PList (map (fun r => PDict (DownloadHistory.as_dict
                                            (isoformat (scripted [] false)) r))
                       recs))
             200),
       history_state) /\
    Permutation (db history_state) recs /\
    StronglySorted newer_first recs.
Proof.
  apply (history_newest_first (scripted [] false) (request "mp4")
           history_state).
  reflexivity.
Defined.

Example history_order :
  map DownloadHistory.id
    (DownloadHistory.order_by_timestamp_desc (db history_state))
  = [2; 3; 1]%Z.
Proof. reflexivity. Qed.

(** Without the token the history is not returned. *)
Example history_unauthorized :
  fst (history (scripted [] false)
         {| authorization := None; args := [] |} history_state) =
  Ok (JsonResponse (PDict [("error", PStr "Unauthorized")]) 401).
Proof. reflexivity. Qed.

(* ===================================================================== *)
(** ** Paths: [dirname], [basename] and [join] together                  *)
(* ===================================================================== *)

Lemma rsplit_slash_no_slash (b : string) :
  has_slash b = false -> PyStr.rsplit_slash b = None.
Proof.
  induction b as [|c b IH]; simpl; [reflexivity|].
  intros H. apply orb_false_iff in H. destruct H as [Hc Hb].
  rewrite (IH Hb), Hc. reflexivity.
Qed.

Lemma rsplit_slash_app (a b : string) :
  has_slash b = false ->
  PyStr.rsplit_slash (a ++ "/" ++ b) = Some ((a ++ "/")%string, b).
Proof.
  intros Hb. induction a as [|c a IH]; simpl.
  - now rewrite (rsplit_slash_no_slash b Hb).
  - simpl in IH. now rewrite IH.
Qed.

Lemma startswith_no_slash (b : string) :
  has_slash b = false -> PyStr.startswith b "/" = false.
Proof.
  destruct b as [|c b]; simpl; [reflexivity|].
  intros H. apply orb_false_iff in H. destruct H as [-> _]. reflexivity.
Qed.

Lemma all_slashes_app (a b : string) :
  PyStr.all_slashes (a ++ b) = PyStr.all_slashes a && PyStr.all_slashes b.
Proof.
  induction a as [|c a IH]; simpl; [reflexivity|].
  now rewrite IH, andb_assoc.
Qed.

Lemma all_slashes_endswith (d : string) :
  PyStr.all_slashes d = true -> d <> "" -> PyStr.endswith d "/" = true.
Proof.
  induction d as [|c d IH]; [congruence|].
  simpl PyStr.all_slashes. intros H _. apply andb_true_iff in H.
  destruct H as [Hc Hd]. apply Ascii.eqb_eq in Hc. subst c.
  rewrite endswith_unfold. destruct d as [|c' d'].
  - reflexivity.
  - rewrite (IH Hd); [apply orb_true_r | discriminate].
Qed.

Lemma rstrip_slash_app (d : string) :
  PyStr.rstrip_slash (d ++ "/") = PyStr.rstrip_slash d.
Proof.
  induction d as [|c d IH]; simpl; [reflexivity|]. now rewrite IH.
Qed.

Lemma rstrip_slash_id (d : string) :
  PyStr.endswith d "/" = false -> PyStr.rstrip_slash d = d.
Proof.
  induction d as [|c d IH]; [reflexivity|].
  rewrite endswith_unfold. intros H. apply orb_false_iff in H.
  destruct H as [Hn Hd]. simpl. rewrite (IH Hd).
  destruct (Ascii.eqb_spec c "/") as [->|]; [|reflexivity].
  destruct d; [discriminate Hn | reflexivity].
Qed.

Lemma endswith_rstrip_slash (s : string) :
  PyStr.endswith (PyStr.rstrip_slash s) "/" = false.
Proof.
  induction s as [|c s IH]; [reflexivity|].
  change (PyStr.rstrip_slash (String c s))
    with (if Ascii.eqb c "/" && String.eqb (PyStr.rstrip_slash s) ""
          then EmptyString else String c (PyStr.rstrip_slash s)).
  destruct (Ascii.eqb c "/" && String.eqb (PyStr.rstrip_slash s) "") eqn:B;
    [reflexivity|].
  rewrite endswith_unfold, IH, orb_false_r.
  apply String.eqb_neq. intros [= Hc Hr]. rewrite Hc, Hr in B.
  discriminate B.
Qed.

(** [os.path.dirname] always returns a normal directory name. *)
Lemma dirname_normal (p : string) : normal_dir (PyStr.dirname p).
Proof.
  unfold normal_dir, PyStr.dirname.
  destruct (PyStr.rsplit_slash p) as [[h t]|]; [|now left].
  destruct (String.eqb_spec h "") as [->|Hh]; [now left|].
  destruct (PyStr.all_slashes h) eqn:A; simpl; [now right|].
  left. apply endswith_rstrip_slash.
Qed.

(** Joining a name without slash and taking the base name gives the
    name back. *)
Lemma basename_join (a b : string) :
  has_slash b = false -> PyStr.basename (PyStr.join a b) = b.
Proof.
  intros Hb. unfold PyStr.join, PyStr.basename.
  rewrite (startswith_no_slash b Hb).
  destruct (String.eqb_spec a "") as [->|Ha]; simpl orb; cbv iota.
  - simpl. now rewrite (rsplit_slash_no_slash b Hb).
  - destruct (PyStr.endswith a "/") eqn:E.
    + apply endswith_iff in E. destruct E as [r ->].
      rewrite append_assoc. now rewrite (rsplit_slash_app r b Hb).
    + now rewrite (rsplit_slash_app a b Hb).
Qed.

(** Joining a name without slash to a normal directory and taking the
    directory name gives the directory back. *)
Lemma dirname_join (d f : string) :
  normal_dir d -> has_slash f = false ->
  PyStr.dirname (PyStr.join d f) = d.
Proof.
  intros Hd Hf. unfold PyStr.join.
  rewrite (startswith_no_slash f Hf).
  destruct (String.eqb_spec d "") as [->|Hne]; simpl orb; cbv iota.
  - unfold PyStr.dirname. simpl append.
    now rewrite (rsplit_slash_no_slash f Hf).
  - assert (Hnil : String.eqb d "" = false) by now apply String.eqb_neq.
    destruct (PyStr.endswith d "/") eqn:E.
    + destruct Hd as [Hd|Hd]; [congruence|].
      assert (R : PyStr.rsplit_slash (d ++ f) = Some (d, f)).
      { apply endswith_iff in E. destruct E as [r ->].
        rewrite append_assoc. apply (rsplit_slash_app r f Hf). }
      unfold PyStr.dirname. rewrite R, Hd, Hnil. reflexivity.
    + assert (A : PyStr.all_slashes d = false).
      { destruct (PyStr.all_slashes d) eqn:A; [|reflexivity].
        rewrite (all_slashes_endswith d A Hne) in E. discriminate. }
      unfold PyStr.dirname. rewrite (rsplit_slash_app d f Hf).
      rewrite all_slashes_app, A.
      replace (String.eqb (d ++ "/") "") with false
        by (destruct d; [contradiction | reflexivity]).
      simpl negb. simpl andb. cbv iota.
      rewrite rstrip_slash_app. now apply rstrip_slash_id.
Qed.

(* ===================================================================== *)
(** ** The bearer check and the argument check                           *)
(* ===================================================================== *)

Lemma require_api_key_rejects (env : Env) (f : Request -> M response)
  (req : Request) (st : State) :
  authorization req <> Some (bearer env) ->
  require_api_key env f req st = (Ok (error_response "Unauthorized" 401), st).
Proof.
  intros H. unfold require_api_key.
  destruct (authorization req) as [a|].
  - destruct (String.eqb_spec a (bearer env)) as [->|]; [now elim H|].
    reflexivity.
  - reflexivity.
Qed.

Lemma require_api_key_passes (env : Env) (f : Request -> M response)
  (req : Request) (st : State) :
  authorized env req -> require_api_key env f req st = f req st.
Proof.
  unfold authorized, require_api_key. intros ->.
  now rewrite String.eqb_refl.
Qed.

(** X1.  A request whose [Authorization] header is absent or is not
    exactly ["Bearer " ++ API_KEY] is answered 401 by both protected
    endpoints, and nothing happens in the world: no scratch directory, no
    engine call, no row. *)
Theorem wrong_token_is_401 (env : Env) (req : Request) (st : State) :
  authorization req <> Some (bearer env) ->
  download_get env req st = (Ok (error_response "Unauthorized" 401), st) /\
  history env req st = (Ok (error_response "Unauthorized" 401), st).
Proof.
  intros H. split; now apply require_api_key_rejects.
Qed.

Lemma wrong_token_is_401_witness :
  download_get (scripted [writes ["dl.mp4"]] false)
    {| authorization := Some "Bearer K3Y";
       args := [("url", "https://x/video"); ("format", "mp4")] |}
    history_state
    = (Ok (error_response "Unauthorized" 401), history_state) /\
  history (scripted [writes ["dl.mp4"]] false)
    {| authorization := Some "Bearer K3Y";
       args := [("url", "https://x/video"); ("format", "mp4")] |}
    history_state
    = (Ok (error_response "Unauthorized" 401), history_state).
Proof.
  apply (wrong_token_is_401 (scripted [writes ["dl.mp4"]] false)
           {| authorization := Some "Bearer K3Y";
              args := [("url", "https://x/video"); ("format", "mp4")] |}
           history_state).
  simpl. discriminate.
Defined.

(** X2.  When [API_KEY] is not set in the environment, the expected
    header is the formatted [None]: the header ["Bearer None"] opens both
    endpoints, and every other header (or none) is answered 401. *)
Theorem unset_api_key_expects_bearer_None
  (env : Env) (req : Request) (st : State) :
  API_KEY env = None ->
  (authorization req = Some "Bearer None" ->
   download_get env req st = download_get_view env req st /\
   history env req st = history_view env req st) /\
  (authorization req <> Some "Bearer None" ->
   download_get env req st = (Ok (error_response "Unauthorized" 401), st) /\
   history env req st = (Ok (error_response "Unauthorized" 401), st)).
Proof.
  intros K.
  assert (B : bearer env = "Bearer None") by (unfold bearer; now rewrite K).
  split; intros H.
  - split; apply require_api_key_passes; unfold authorized; now rewrite B.
  - split; apply require_api_key_rejects; now rewrite B.
Qed.

Lemma unset_api_key_expects_bearer_None_witness :
  (authorization (bare_request (Some "Bearer None")) = Some "Bearer None" ->
   download_get (with_api_key None (scripted [] false))
     (bare_request (Some "Bearer None")) history_state
   = download_get_view (with_api_key None (scripted [] false))
       (bare_request (Some "Bearer None")) history_state /\
   history (with_api_key None (scripted [] false))
     (bare_request (Some "Bearer None")) history_state
   = history_view (with_api_key None (scripted [] false))
       (bare_request (Some "Bearer None")) history_state) /\
  (authorization (bare_request (Some "Bearer None")) <> Some "Bearer None" ->
   download_get (with_api_key None (scripted [] false))
     (bare_request (Some "Bearer None")) history_state
   = (Ok (error_response "Unauthorized" 401), history_state) /\
   history (with_api_key None (scripted [] false))
     (bare_request (Some "Bearer None")) history_state
   = (Ok (error_response "Unauthorized" 401), history_state)).
Proof.
  apply (unset_api_key_expects_bearer_None
           (with_api_key None (scripted [] false))
           (bare_request (Some "Bearer None")) history_state).
  reflexivity.
Defined.

Example unset_api_key_history :
  fst (history (with_api_key None (scripted [] false))
         (bare_request (Some "Bearer None")) empty_state)
  = Ok (JsonResponse (PList []) 200).
Proof. reflexivity. Qed.

(** X3.  An authorized request to the download endpoint whose [url] or
    [format] argument is missing or empty is answered 400 before anything
    else happens: no scratch directory is created and the world is left
    as it was. *)
Theorem missing_argument_is_400 (env : Env) (req : Request) (st : State) :
  authorized env req ->
  truthy (args_get "url" (args req)) = false \/
  truthy (args_get "format" (args req)) = false ->
  download_get env req st =
  (Ok (error_response "Missing url or format" 400), st).
Proof.
  intros A H. unfold download_get.
  rewrite (require_api_key_passes env _ req st A).
  unfold download_get_view.
  destruct H as [-> | ->]; [reflexivity|].
  rewrite orb_true_r. reflexivity.
Qed.

Lemma missing_argument_is_400_witness :
  download_get (scripted [writes ["dl.mp4"]] false)
    {| authorization := Some "Bearer k3y";
       args := [("url", "https://x/video"); ("format", "")] |}
    empty_state
  = (Ok (error_response "Missing url or format" 400), empty_state).
Proof.
  apply (missing_argument_is_400 (scripted [writes ["dl.mp4"]] false)
           {| authorization := Some "Bearer k3y";
              args := [("url", "https://x/video"); ("format", "")] |}
           empty_state).
  - reflexivity.
  - right. reflexivity.
Defined.

(* ===================================================================== *)
(** ** The resolved options                                              *)
(* ===================================================================== *)

(** X4.  [get_ydl_opts] returns options exactly for the formats ['mp4']
    and ['mp3'] (the comparison is case-sensitive), and raises
    [ValueError] otherwise.  The options it returns carry the template as
    ['outtmpl'] and [MAX_DOWNLOAD_RETRIES] as ['retries']; only the mp4
    options ask for a merge into mp4 and only the mp3 options have
    post-processors. *)
Theorem get_ydl_opts_characterised (fmt quality tpl : string) :
  match get_ydl_opts fmt quality tpl with
  | Ok opts =>
      supported fmt /\
      dict_get "outtmpl" opts = Some (PStr tpl) /\
      dict_get "retries" opts = Some (PInt (Z.of_nat MAX_DOWNLOAD_RETRIES)) /\
      (fmt = "mp4" ->
       dict_get "merge_output_format" opts = Some (PStr "mp4") /\
       dict_get "postprocessors" opts = None) /\
      (fmt = "mp3" ->
       dict_get "merge_output_format" opts = None /\
       dict_get "postprocessors" opts <> None)
  | Raise e =>
      ~ supported fmt /\ e = ValueError ("Unsupported format: " ++ fmt)
  end.
Proof.
  unfold get_ydl_opts, supported.
  destruct (String.eqb_spec fmt "mp4") as [->|N4].
  - repeat split; try (now left); try discriminate.
  - destruct (String.eqb_spec fmt "mp3") as [->|N3].
    + repeat split; try (now right); try discriminate.
    + split; [tauto | reflexivity].
Qed.

Example upper_case_format_unsupported :
  get_ydl_opts "MP4" "best" scratch_tpl
  = Raise (ValueError "Unsupported format: MP4").
Proof. reflexivity. Qed.

(* ===================================================================== *)
(** ** The endpoint after a located file                                 *)
(* ===================================================================== *)

Section Completed.

Variable env : Env.
Variables (req : Request) (st : State).
Variables (url fmt quality path : string) (st2 : State).

Hypothesis Hacc : accepted env req = Some (url, fmt, quality).
Hypothesis Hloc :
  download_single env url fmt quality (request_tpl env st)
    (snd (mkdtemp env st)) = (Ok path, st2).

Lemma located_db : db st2 = db st.
Proof.
  pose proof (keeps_db_download_single env url fmt quality
                (request_tpl env st) (snd (mkdtemp env st))) as H.
  rewrite Hloc in H. exact H.
Qed.

(** The run of the endpoint when the commit is refused. *)
Lemma download_get_commit_refused (e : exn) :
  commit_error env (clock st2) = Some e ->
  download_get env req st =
  (Ok (error_response (str_exn e) 500),
   snd (rmtree_ignore_errors env (request_tmp env st)
          (emit (EvException "Download error") st2))).
Proof.
  intros C.
  rewrite (download_get_accepted env req st url fmt quality Hacc).
  rewrite try_finally_rmtree.
  pose proof (download_get_try_ok env _ _ _ _ _ _ _ Hloc) as T.
  rewrite C in T.
  rewrite (guarded_raise env _ _ _ _ _ _ _ T). reflexivity.
Qed.

(** The run of the endpoint when the commit goes through. *)
Lemma download_get_committed :
  commit_error env (clock st2) = None ->
  let row := DownloadHistory.mk (DownloadHistory.next_id (db st))
               url fmt quality (utcnow env (clock st2)) in
  let st3 := {| fs := fs st2; db := db st ++ [row];
                trace := EvCommit row :: trace st2 |} in
  download_get env req st =
  match send_file_error env (S (clock st2)) with
  | Some e =>
      (Ok (error_response (str_exn e) 500),
       snd (rmtree_ignore_errors env (request_tmp env st)
              (emit (EvException "Download error") st3)))
  | None =>
      (Ok (FileResponse path true ("JustPaste." ++ fmt)),
       snd (rmtree_ignore_errors env (request_tmp env st)
              (emit (EvSendFile path) st3)))
  end.
Proof.
  intros C. cbv zeta.
  rewrite (download_get_accepted env req st url fmt quality Hacc).
  rewrite try_finally_rmtree.
  pose proof (download_get_try_ok env _ _ _ _ _ _ _ Hloc) as T.
  rewrite C in T. unfold db_add_commit, send_file in T. rewrite C in T.
  cbn [snd] in T. rewrite located_db in T.
  change (clock {| fs := fs st2;
                   db := db st ++
                         [DownloadHistory.mk (DownloadHistory.next_id (db st))
                            url fmt quality (utcnow env (clock st2))];
                   trace :=
                     EvCommit
                       (DownloadHistory.mk (DownloadHistory.next_id (db st))
                          url fmt quality (utcnow env (clock st2)))
                     :: trace st2 |})
    with (S (clock st2)) in T.
  destruct (send_file_error env (S (clock st2))) as [e|].
  - rewrite (guarded_raise env _ _ _ _ _ _ _ T). reflexivity.
  - rewrite (guarded_ok env _ _ _ _ _ _ _ T). reflexivity.
Qed.

End Completed.

(** X5.  When [download_single] returns a path, the commit goes through
    and [send_file] succeeds, the endpoint answers with that file as an
    attachment named ["JustPaste." ++ fmt] (the requested format, not the
    name of the located file); the effects after the scan are, in order,
    the commit of the row, [send_file], and the removal of the scratch
    directory. *)
Theorem completed_download_sends_file
  (env : Env) (req : Request) (st : State)
  (url fmt quality path : string) (st2 : State) :
  accepted env req = Some (url, fmt, quality) ->
  download_single env url fmt quality (request_tpl env st)
    (snd (mkdtemp env st)) = (Ok path, st2) ->
  commit_error env (clock st2) = None ->
  send_file_error env (S (clock st2)) = None ->
  let row := DownloadHistory.mk (DownloadHistory.next_id (db st))
               url fmt quality (utcnow env (clock st2)) in
  fst (download_get env req st)
    = Ok (FileResponse path true ("JustPaste." ++ fmt)) /\
  trace (snd (download_get env req st))
    = EvRmtree (request_tmp env st) :: EvSendFile path :: EvCommit row
        :: trace st2.
Proof.
  intros A L C S. cbv zeta.
  rewrite (download_get_committed env req st url fmt quality path st2 A L C).
  rewrite S. split; reflexivity.
Qed.

Lemma completed_download_sends_file_witness :
  fst (download_get (scripted [writes ["dl.part"; "dl.MP3"]] false)
         (request "mp3") empty_state)
    = Ok (FileResponse "/tmp/tmpab12/dl.MP3" true "JustPaste.mp3").
Proof.
  apply (completed_download_sends_file
           (scripted [writes ["dl.part"; "dl.MP3"]] false)
           (request "mp3") empty_state
           "https://x/video" "mp3" "best" "/tmp/tmpab12/dl.MP3"
           (snd (download_single
                   (scripted [writes ["dl.part"; "dl.MP3"]] false)
                   "https://x/video" "mp3" "best"
                   (request_tpl
                      (scripted [writes ["dl.part"; "dl.MP3"]] false)
                      empty_state)
                   (snd (mkdtemp
                           (scripted [writes ["dl.part"; "dl.MP3"]] false)
                           empty_state)))));
    reflexivity.
Defined.

(** X6.  When [send_file] raises after the commit, the endpoint answers
    500 with that exception's message, and the row committed just before
    stays in the history table: the table then lists a download that the
    client did not receive. *)
Theorem send_file_failure_keeps_row
  (env : Env) (req : Request) (st : State)
  (url fmt quality path : string) (st2 : State) (e : exn) :
  accepted env req = Some (url, fmt, quality) ->
  download_single env url fmt quality (request_tpl env st)
    (snd (mkdtemp env st)) = (Ok path, st2) ->
  commit_error env (clock st2) = None ->
  send_file_error env (S (clock st2)) = Some e ->
  fst (download_get env req st) = Ok (error_response (str_exn e) 500) /\
  db (snd (download_get env req st))
    = db st ++ [DownloadHistory.mk (DownloadHistory.next_id (db st))
                  url fmt quality (utcnow env (clock st2))].
Proof.
  intros A L C S.
  rewrite (download_get_committed env req st url fmt quality path st2 A L C).
  rewrite S. split; reflexivity.
Qed.

Lemma send_file_failure_keeps_row_witness :
  fst (download_get
         (with_send_file_error
            (fun _ => Some (OtherException "OSError" "disk error"))
            (scripted [writes ["dl.mp4"]] false))
         (request "mp4") empty_state)
    = Ok (error_response "disk error" 500) /\
  db (snd (download_get
             (with_send_file_error
                (fun _ => Some (OtherException "OSError" "disk error"))
                (scripted [writes ["dl.mp4"]] false))
             (request "mp4") empty_state))
    = db empty_state
        ++ [DownloadHistory.mk (DownloadHistory.next_id (db empty_state))
              "https://x/video" "mp4" "best" 3].
Proof.
  apply (send_file_failure_keeps_row
           (with_send_file_error
              (fun _ => Some (OtherException "OSError" "disk error"))
              (scripted [writes ["dl.mp4"]] false))
           (request "mp4") empty_state
           "https://x/video" "mp4" "best" "/tmp/tmpab12/dl.mp4"
           (snd (download_single (scripted [writes ["dl.mp4"]] false)
                   "https://x/video" "mp4" "best"
                   (request_tpl (scripted [writes ["dl.mp4"]] false)
                      empty_state)
                   (snd (mkdtemp (scripted [writes ["dl.mp4"]] false)
                           empty_state))))
           (OtherException "OSError" "disk error"));
    reflexivity.
Defined.

(** X7.  When the commit raises, the endpoint answers 500 with that
    exception's message; the file is not sent, the history table is left
    as it was, and the scratch directory is removed all the same. *)
Theorem commit_failure_is_500
  (env : Env) (req : Request) (st : State)
  (url fmt quality path : string) (st2 : State) (e : exn) :
  accepted env req = Some (url, fmt, quality) ->
  download_single env url fmt quality (request_tpl env st)
    (snd (mkdtemp env st)) = (Ok path, st2) ->
  commit_error env (clock st2) = Some e ->
  fst (download_get env req st) = Ok (error_response (str_exn e) 500) /\
  db (snd (download_get env req st)) = db st /\
  trace (snd (download_get env req st))
    = EvRmtree (request_tmp env st) :: EvException "Download error"
        :: trace st2.
Proof.
  intros A L C.
  rewrite (download_get_commit_refused env req st url fmt quality path st2
             A L e C).
  repeat split. cbn. apply (located_db env st url fmt quality path st2 L).
Qed.

Lemma commit_failure_is_500_witness :
  fst (download_get
         (with_commit_error
            (fun _ => Some (OtherException "OperationalError"
                              "database is locked"))
            (scripted [writes ["dl.mp4"]] false))
         (request "mp4") empty_state)
    = Ok (error_response "database is locked" 500).
Proof.
  apply (commit_failure_is_500
           (with_commit_error
              (fun _ => Some (OtherException "OperationalError"
                                "database is locked"))
              (scripted [writes ["dl.mp4"]] false))
           (request "mp4") empty_state
           "https://x/video" "mp4" "best" "/tmp/tmpab12/dl.mp4"
           (snd (download_single (scripted [writes ["dl.mp4"]] false)
                   "https://x/video" "mp4" "best"
                   (request_tpl (scripted [writes ["dl.mp4"]] false)
                      empty_state)
                   (snd (mkdtemp (scripted [writes ["dl.mp4"]] false)
                           empty_state))))
           (OtherException "OperationalError" "database is locked"));
    reflexivity.
Defined.

(** X8.  After a download whose file was located and whose commit went
    through, the history endpoint lists a row with the url, the format
    and the quality of that request (the default ['best'] when the
    request named no quality), whether or not the file could be sent. *)
Theorem completed_download_listed
  (env : Env) (req req' : Request) (st : State)
  (url fmt quality path : string) (st2 : State) :
  accepted env req = Some (url, fmt, quality) ->
  download_single env url fmt quality (request_tpl env st)
    (snd (mkdtemp env st)) = (Ok path, st2) ->
  commit_error env (clock st2) = None ->
  authorized env req' ->
  exists recs row,
    fst (history env req' (snd (download_get env req st))) =
      Ok (JsonResponse
            (PList (map (fun r => PDict (DownloadHistory.as_dict
                                           (isoformat env) r)) recs))
            200) /\
    In row recs /\
    DownloadHistory.url row = arg_value (args_get "url" (args req)) /\
    DownloadHistory.file_format row
      = arg_value (args_get "format" (args req)) /\
    DownloadHistory.quality row = quality_arg req.
Proof.
  intros A L C A'.
  assert (D : db (snd (download_get env req st)) =
              db st ++ [DownloadHistory.mk (DownloadHistory.next_id (db st))
                          url fmt quality (utcnow env (clock st2))]).
  { rewrite (download_get_committed env req st url fmt quality path st2
               A L C).
    destruct (send_file_error env (S (clock st2))); reflexivity. }
  exists (DownloadHistory.order_by_timestamp_desc
            (db (snd (download_get env req st)))),
         (DownloadHistory.mk (DownloadHistory.next_id (db st))
            url fmt quality (utcnow env (clock st2))).
  split; [|split].
  - unfold history. rewrite require_api_key_passes by exact A'. reflexivity.
  - eapply Permutation_in; [apply order_by_timestamp_desc_perm|].
    rewrite D. apply in_or_app. right. now left.
  - unfold accepted in A.
    destruct (String.eqb _ _ && _ && _); [|discriminate].
    injection A as <- <- <-. repeat split.
Qed.

Lemma completed_download_listed_witness :
  exists recs row,
    fst (history (scripted [writes ["dl.mp4"]] false) (request "mp3")
           (snd (download_get (scripted [writes ["dl.mp4"]] false)
                   (request "mp4") history_state))) =
      Ok (JsonResponse
            (PList (map (fun r => PDict (DownloadHistory.as_dict
                                           (isoformat
                                              (scripted [writes ["dl.mp4"]]
                                                 false)) r)) recs))
            200) /\
    In row recs /\
    DownloadHistory.url row
      = arg_value (args_get "url" (args (request "mp4"))) /\
    DownloadHistory.file_format row
      = arg_value (args_get "format" (args (request "mp4"))) /\
    DownloadHistory.quality row = quality_arg (request "mp4").
Proof.
  apply (completed_download_listed
           (scripted [writes ["dl.mp4"]] false)
           (request "mp4") (request "mp3") history_state
           "https://x/video" "mp4" "best" "/tmp/tmpab12/dl.mp4"
           (snd (download_single (scripted [writes ["dl.mp4"]] false)
                   "https://x/video" "mp4" "best"
                   (request_tpl (scripted [writes ["dl.mp4"]] false)
                      history_state)
                   (snd (mkdtemp (scripted [writes ["dl.mp4"]] false)
                           history_state)))));
    reflexivity.
Defined.

(* ===================================================================== *)
(** ** The retry loop, attempt by attempt                                *)
(* ===================================================================== *)


Section Attempts.

Variable env : Env.
Variables (url : string) (opts : pydict).



(** Whatever the engine does, the loop invokes it at most once per
    attempt, always with the same arguments, and lists no directory. *)
Lemma for_attempts_bounded (retries : nat) (attempts : list nat) :
  forall st,
  exists evs,
    trace (snd (for_attempts env retries url opts attempts st))
      = evs ++ trace st /\
    length (filter is_engine evs) <= length attempts /\
    filter is_listdir evs = [] /\
    Forall (fun ev => is_engine ev = true -> ev = EvEngine url opts) evs.
Proof.
  induction attempts as [|a l IH]; intros st.
  - exists []. repeat split; auto.
  - destruct (eo_error (engine env (engine_calls st))) as [e|] eqn:E.
    + rewrite (for_attempts_failure env url opts retries a l st e E).
      cbv zeta. set (st1 := emit _ _).
      assert (Ht1 : trace st1 =
                    [EvWarning ("Attempt " ++ PyStr.str_of_nat (a + 1)
                                  ++ " failed: " ++ str_exn e);
                     EvEngine url opts] ++ trace st).
      { subst st1. simpl. now rewrite ydl_download_trace. }
      destruct (Nat.eqb a (retries - 1)).
      * exists [EvWarning ("Attempt " ++ PyStr.str_of_nat (a + 1)
                            ++ " failed: " ++ str_exn e);
                EvEngine url opts].
        cbn [snd]. repeat split; auto.
        -- simpl. lia.
        -- repeat constructor. discriminate.
      * destruct (IH st1) as (evs & Ht & Hn & Hl & Hall).
        exists (evs ++ [EvWarning ("Attempt " ++ PyStr.str_of_nat (a + 1)
                                    ++ " failed: " ++ str_exn e);
                        EvEngine url opts]).
        rewrite Ht, Ht1, app_assoc. split; [reflexivity|].
        rewrite !filter_app, length_app, Hl. simpl. repeat split.
        -- lia.
        -- apply Forall_app. split; [exact Hall|].
           repeat constructor. discriminate.
    + rewrite (for_attempts_success env url opts retries a l st E).
      exists [EvEngine url opts]. cbn [snd]. repeat split.
      * apply ydl_download_trace.
      * simpl. lia.
      * repeat constructor.
Qed.

End Attempts.

Section Outcomes.

Variable env : Env.

Lemma download_single_bounded url fmt quality tpl st :
  exists evs,
    trace (snd (download_single env url fmt quality tpl st))
      = evs ++ trace st /\
    length (filter is_engine evs) <= MAX_DOWNLOAD_RETRIES /\
    length (filter is_listdir evs) <= 1 /\
    Forall (fun ev => is_engine ev = true ->
                      exists opts, get_ydl_opts fmt quality tpl = Ok opts /\
                                   ev = EvEngine url opts) evs.
Proof.
  destruct (get_ydl_opts fmt quality tpl) as [opts|e] eqn:O.
  - rewrite (download_single_resolved env _ _ _ _ _ _ O).
    unfold retry_loop, range.
    destruct (for_attempts_bounded env url opts MAX_DOWNLOAD_RETRIES
                (seq 0 MAX_DOWNLOAD_RETRIES) st)
      as (evs & Ht & Hn & Hl & Hall).
    rewrite length_seq in Hn.
    assert (Hall' : Forall (fun ev => is_engine ev = true ->
                      exists opts0, Ok opts = Ok opts0 /\
                                    ev = EvEngine url opts0) evs).
    { eapply Forall_impl; [|exact Hall]. intros ev H He.
      exists opts. split; [reflexivity | now apply H]. }
    destruct (for_attempts env MAX_DOWNLOAD_RETRIES url opts
                (seq 0 MAX_DOWNLOAD_RETRIES) st) as [[[]|e] st1];
      cbn [snd] in Ht.
    + exists (EvListdir (PyStr.dirname tpl) :: evs).
      split; [|split; [|split]].
      * cbv zeta. destruct (fs_get _ _) as [entries|];
          [destruct (locate _ _ _ entries)|]; simpl; now rewrite Ht.
      * simpl. exact Hn.
      * simpl. rewrite Hl. simpl. lia.
      * constructor; [discriminate | exact Hall'].
    + exists evs. rewrite Hl. simpl. repeat split; auto.
  - exists []. unfold download_single, bind, lift. rewrite O.
    repeat split; simpl; auto; lia.
Qed.


End Outcomes.



(** X10.  Whatever the engine and the file system do, one call of
    [download_single] invokes the engine at most [MAX_DOWNLOAD_RETRIES]
    times, each time with the call's url and the options resolved from
    its format and template, lists a directory at most once, and never
    touches the history table. *)
Theorem download_single_effects_bounded
  (env : Env) (url fmt quality tpl : string) (st : State) :
  exists evs,
    trace (snd (download_single env url fmt quality tpl st))
      = evs ++ trace st /\
    length (filter is_engine evs) <= MAX_DOWNLOAD_RETRIES /\
    length (filter is_listdir evs) <= 1 /\
    Forall (fun ev => is_engine ev = true ->
                      exists opts, get_ydl_opts fmt quality tpl = Ok opts /\
                                   ev = EvEngine url opts) evs /\
    db (snd (download_single env url fmt quality tpl st)) = db st.
Proof.
  destruct (download_single_bounded env url fmt quality tpl st)
    as (evs & Ht & Hn & Hl & Hall).
  exists evs. repeat split; auto. apply keeps_db_download_single.
Qed.

(** X11.  [download_single] returns a path only if one of its attempts
    saw the engine return normally: when the engine raises on every
    attempt no path comes back, whatever files the directory holds. *)
Theorem path_requires_successful_attempt
  (env : Env) (url fmt quality tpl : string) (st st' : State)
  (path : string) :
  download_single env url fmt quality tpl st = (Ok path, st') ->
  exists k, k < MAX_DOWNLOAD_RETRIES /\ attempt_succeeds env st k.
Proof.
  intros H. unfold attempt_succeeds.
  destruct (eo_error (engine env (engine_calls st + 0))) as [e0|] eqn:E0.
  2:{ exists 0. split; [unfold MAX_DOWNLOAD_RETRIES; lia | exact E0]. }
  destruct (eo_error (engine env (engine_calls st + 1))) as [e1|] eqn:E1.
  2:{ exists 1. split; [unfold MAX_DOWNLOAD_RETRIES; lia | exact E1]. }
  exfalso.
  destruct (download_single_ok env _ _ _ _ _ _ _ H) as (Hs & _).
  destruct (get_ydl_opts_supported fmt quality tpl Hs) as (opts & O & _).
  destruct (for_attempts_all_fail env url opts MAX_DOWNLOAD_RETRIES 1 0 st)
    as (e & st1 & evs & Hrun & _).
  - reflexivity.
  - intros k Hk. destruct k as [|[|k]]; [congruence | congruence | lia].
  - rewrite (download_single_resolved env _ _ _ _ _ _ O) in H.
    unfold retry_loop, range in H.
    change (seq 0 MAX_DOWNLOAD_RETRIES) with (seq 0 2) in H.
    rewrite Hrun in H. discriminate H.
Qed.

Lemma path_requires_successful_attempt_witness :
  exists k, k < MAX_DOWNLOAD_RETRIES /\
            attempt_succeeds (scripted [fails "boom"; writes ["dl.mp4"]] false)
              scratch_state k.
Proof.
  apply (path_requires_successful_attempt
           (scripted [fails "boom"; writes ["dl.mp4"]] false)
           "https://x/video" "mp4" "best" scratch_tpl scratch_state
           (snd (download_single
                   (scripted [fails "boom"; writes ["dl.mp4"]] false)
                   "https://x/video" "mp4" "best" scratch_tpl scratch_state))
           "/tmp/tmpab12/dl.mp4").
  reflexivity.
Defined.

(** A stale file that matches is not returned when both attempts fail. *)
Example stale_file_not_returned :
  fst (download_single (scripted [fails "boom"; fails "bam"] false)
         "https://x/video" "mp4" "best" scratch_tpl
         {| fs := [("/tmp/tmpab12", ["dl.mp4"])]; db := []; trace := [] |})
  = Raise (OtherException "DownloadError" "bam").
Proof. reflexivity. Qed.

(* ===================================================================== *)
(** ** What the scan returns                                             *)
(* ===================================================================== *)

(** X12.  A path returned by [download_single] is the join of the
    template's directory with the first entry of its listing, in listing
    order, whose name starts with the template's prefix and whose
    lower-cased name ends with the format string; every entry before it
    fails that test. *)
Theorem scan_returns_first_candidate
  (env : Env) (url fmt quality tpl : string) (st st' : State)
  (path : string) :
  download_single env url fmt quality tpl st = (Ok path, st') ->
  exists entries pre fname post,
    fs_get (PyStr.dirname tpl) (fs st') = Some entries /\
    entries = pre ++ fname :: post /\
    Forall (fun x => candidate (tpl_prefix tpl) fmt x = false) pre /\
    PyStr.startswith fname (tpl_prefix tpl) = true /\
    (exists stem, PyStr.lower fname = (stem ++ fmt)%string) /\
    path = PyStr.join (PyStr.dirname tpl) fname.
Proof.
  intros H.
  destruct (download_single_ok env _ _ _ _ _ _ _ H) as (_ & entries & F & L).
  destruct (proj1 (locate_some _ _ _ _ _) L)
    as (pre & fname & post & -> & Hpre & Hc & ->).
  apply andb_true_iff in Hc. destruct Hc as [Hp He].
  exists (pre ++ fname :: post), pre, fname, post.
  repeat split; auto. now apply endswith_iff.
Qed.

Lemma scan_returns_first_candidate_witness :
  exists entries pre fname post,
    fs_get (PyStr.dirname scratch_tpl)
      (fs (snd (download_single
                  (scripted [writes ["dl.part"; "dl.MP4"; "dl.mp4"]] false)
                  "https://x/video" "mp4" "best" scratch_tpl scratch_state)))
      = Some entries /\
    entries = pre ++ fname :: post /\
    Forall (fun x => candidate (tpl_prefix scratch_tpl) "mp4" x = false) pre /\
    PyStr.startswith fname (tpl_prefix scratch_tpl) = true /\
    (exists stem, PyStr.lower fname = (stem ++ "mp4")%string) /\
    "/tmp/tmpab12/dl.MP4" = PyStr.join (PyStr.dirname scratch_tpl) fname.
Proof.
  apply (scan_returns_first_candidate
           (scripted [writes ["dl.part"; "dl.MP4"; "dl.mp4"]] false)
           "https://x/video" "mp4" "best" scratch_tpl scratch_state
           (snd (download_single
                   (scripted [writes ["dl.part"; "dl.MP4"; "dl.mp4"]] false)
                   "https://x/video" "mp4" "best" scratch_tpl scratch_state))
           "/tmp/tmpab12/dl.MP4").
  reflexivity.
Defined.



(** X14.  When the directory entries hold no slash (as the names that
    [os.listdir] yields), the path that [download_single] returns splits
    back into the template's directory and the entry that was chosen:
    its [dirname] is the directory that was listed, its [basename] is an
    entry of that directory and starts with the template's prefix. *)
Theorem located_path_splits_back
  (env : Env) (url fmt quality tpl : string) (st st' : State)
  (path : string) :
  download_single env url fmt quality tpl st = (Ok path, st') ->
  (forall entries,
     fs_get (PyStr.dirname tpl) (fs st') = Some entries ->
     Forall (fun x => has_slash x = false) entries) ->
  PyStr.dirname path = PyStr.dirname tpl /\
  PyStr.startswith (PyStr.basename path) (tpl_prefix tpl) = true /\
  exists entries,
    fs_get (PyStr.dirname tpl) (fs st') = Some entries /\
    In (PyStr.basename path) entries.
Proof.
  intros H Hns.
  destruct (download_single_first_candidate env _ _ _ _ _ _ _ H)
    as (entries & pre & fname & post & F & -> & _ & Hp & _ & ->).
  specialize (Hns _ F). rewrite Forall_forall in Hns.
  assert (Hf : has_slash fname = false).
  { apply Hns. apply in_or_app. right. now left. }
  rewrite (dirname_join _ _ (dirname_normal tpl) Hf).
  rewrite (basename_join _ _ Hf).
  split; [reflexivity|]. split; [exact Hp|].
  eexists. split; [exact F|]. apply in_or_app. right. now left.
Qed.

Lemma located_path_splits_back_witness :
  PyStr.dirname "/tmp/tmpab12/dl.mp4" = PyStr.dirname scratch_tpl /\
  PyStr.startswith (PyStr.basename "/tmp/tmpab12/dl.mp4")
    (tpl_prefix scratch_tpl) = true /\
  exists entries,
    fs_get (PyStr.dirname scratch_tpl)
      (fs (snd (download_single (scripted [writes ["dl.mp4"]] false)
                  "https://x/video" "mp4" "best" scratch_tpl scratch_state)))
      = Some entries /\
    In (PyStr.basename "/tmp/tmpab12/dl.mp4") entries.
Proof.
  apply (located_path_splits_back
           (scripted [writes ["dl.mp4"]] false)
           "https://x/video" "mp4" "best" scratch_tpl scratch_state
           (snd (download_single (scripted [writes ["dl.mp4"]] false)
                   "https://x/video" "mp4" "best" scratch_tpl scratch_state))
           "/tmp/tmpab12/dl.mp4").
  - reflexivity.
  - intros entries H. vm_compute in H. injection H as <-.
    repeat constructor.
Defined.

(** X15.  In the endpoint the template is ["dl.%(ext)s"] joined to the
    scratch directory, so (for a scratch directory name without trailing
    slash) the file that is located is an entry of the scratch directory
    itself, the one the [finally] clause removes, and its name starts
    with ["dl"]. *)
Theorem endpoint_file_comes_from_scratch
  (env : Env) (st : State) (url fmt quality path : string) (st2 : State) :
  normal_dir (request_tmp env st) ->
  download_single env url fmt quality (request_tpl env st)
    (snd (mkdtemp env st)) = (Ok path, st2) ->
  exists entries fname,
    fs_get (request_tmp env st) (fs st2) = Some entries /\
    In fname entries /\
    PyStr.startswith fname "dl" = true /\
    path = PyStr.join (request_tmp env st) fname.
Proof.
  intros Hn H.
  assert (Hd : PyStr.dirname (request_tpl env st) = request_tmp env st).
  { unfold request_tpl. now apply dirname_join. }
  assert (Hp : tpl_prefix (request_tpl env st) = "dl").
  { unfold tpl_prefix, request_tpl. now rewrite basename_join. }
  destruct (download_single_first_candidate env _ _ _ _ _ _ _ H)
    as (entries & pre & fname & post & F & -> & _ & Hs & _ & ->).
  rewrite Hd in *. rewrite Hp in Hs.
  exists (pre ++ fname :: post), fname.
  repeat split; auto. apply in_or_app. right. now left.
Qed.

Lemma endpoint_file_comes_from_scratch_witness :
  exists entries fname,
    fs_get (request_tmp (scripted [writes ["x.mp4"; "dl.mp4"]] false)
              empty_state)
      (fs (snd (download_single
                  (scripted [writes ["x.mp4"; "dl.mp4"]] false)
                  "https://x/video" "mp4" "best"
                  (request_tpl (scripted [writes ["x.mp4"; "dl.mp4"]] false)
                     empty_state)
                  (snd (mkdtemp (scripted [writes ["x.mp4"; "dl.mp4"]] false)
                          empty_state)))))
      = Some entries /\
    In fname entries /\
    PyStr.startswith fname "dl" = true /\
    "/tmp/tmpab12/dl.mp4"
      = PyStr.join (request_tmp (scripted [writes ["x.mp4"; "dl.mp4"]] false)
                      empty_state) fname.
Proof.
  apply (endpoint_file_comes_from_scratch
           (scripted [writes ["x.mp4"; "dl.mp4"]] false) empty_state
           "https://x/video" "mp4" "best" "/tmp/tmpab12/dl.mp4"
           (snd (download_single
                   (scripted [writes ["x.mp4"; "dl.mp4"]] false)
                   "https://x/video" "mp4" "best"
                   (request_tpl (scripted [writes ["x.mp4"; "dl.mp4"]] false)
                      empty_state)
                   (snd (mkdtemp (scripted [writes ["x.mp4"; "dl.mp4"]] false)
                           empty_state))))).
  - left. reflexivity.
  - reflexivity.
Defined.



(* ===================================================================== *)
(** ** The cost of a request                                             *)
(* ===================================================================== *)

Lemma download_get_orchestrator_raised
  (env : Env) (req : Request) (st : State)
  (url fmt quality : string) (e : exn) (st2 : State) :
  accepted env req = Some (url, fmt, quality) ->
  download_single env url fmt quality (request_tpl env st)
    (snd (mkdtemp env st)) = (Raise e, st2) ->
  download_get env req st =
  (Ok (error_response (str_exn e) 500),
   snd (rmtree_ignore_errors env (request_tmp env st)
          (emit (EvException "Download error") st2))).
Proof.
  intros A D.
  rewrite (download_get_accepted env req st url fmt quality A).
  rewrite try_finally_rmtree.
  pose proof (download_get_try_raise env _ _ _ _ _ _ _ D) as T.
  rewrite (guarded_raise env _ _ _ _ _ _ _ T). reflexivity.
Qed.

(** The events that the endpoint adds around those of the
    orchestrator are neither engine invocations nor listings. *)
Lemma download_get_around_orchestrator
  (env : Env) (req : Request) (st : State) (url fmt quality : string) :
  accepted env req = Some (url, fmt, quality) ->
  exists after,
    trace (snd (download_get env req st)) =
      after ++ trace (snd (download_single env url fmt quality
                             (request_tpl env st) (snd (mkdtemp env st)))) /\
    filter is_engine after = [] /\
    filter is_listdir after = [].
Proof.
  intros A.
  destruct (download_single env url fmt quality (request_tpl env st)
              (snd (mkdtemp env st))) as [[path|e] st2] eqn:D.
  - destruct (commit_error env (clock st2)) as [e|] eqn:C.
    + rewrite (download_get_commit_refused env req st url fmt quality path
                 st2 A D e C).
      eexists [_; _]. repeat split.
    + rewrite (download_get_committed env req st url fmt quality path st2
                 A D C).
      destruct (send_file_error env (S (clock st2)));
        eexists [_; _; _]; repeat split.
  - rewrite (download_get_orchestrator_raised env req st url fmt quality e
               st2 A D).
    eexists [_; _]. repeat split.
Qed.

(** X17.  One request to the download endpoint invokes the engine at
    most [MAX_DOWNLOAD_RETRIES] times and lists a directory at most once,
    whatever the engine, the file system and the database do; a request
    that is rejected (401 or 400) invokes the engine not at all. *)
Theorem request_cost_bounded (env : Env) (req : Request) (st : State) :
  engine_calls st <= engine_calls (snd (download_get env req st))
    <= engine_calls st + MAX_DOWNLOAD_RETRIES /\
  listdir_calls (snd (download_get env req st)) <= listdir_calls st + 1 /\
  (accepted env req = None ->
   engine_calls (snd (download_get env req st)) = engine_calls st).
Proof.
  destruct (accepted env req) as [[[url fmt] quality]|] eqn:A.
  - destruct (download_get_around_orchestrator env req st url fmt quality A)
      as (after & Ht & He & Hl).
    destruct (download_single_bounded env url fmt quality
                (request_tpl env st) (snd (mkdtemp env st)))
      as (evs & Hs & Hn & Hm & _).
    rewrite Hs in Ht.
    assert (T : trace (snd (download_get env req st)) =
                (after ++ evs ++ [EvMkdtemp (request_tmp env st)])
                  ++ trace st).
    { rewrite Ht. simpl. now rewrite <- !app_assoc. }
    rewrite (engine_calls_app _ _ _ T), (listdir_calls_app _ _ _ T).
    rewrite !filter_app, !length_app, He, Hl. simpl.
    repeat split; try lia. discriminate.
  - assert (R : snd (download_get env req st) = st).
    { destruct (download_get_rejected env req st A) as [-> | ->];
        reflexivity. }
    rewrite R. unfold MAX_DOWNLOAD_RETRIES. repeat split; lia.
Qed.

(** X18.  A request with a format other than ['mp4'] and ['mp3'] is not
    rejected with the missing arguments: it is accepted, a scratch
    directory is created and removed again, the failure is logged, and
    the answer is 500 with the message of the [ValueError]; the engine is
    not invoked, no directory is listed and no row is written. *)
Theorem unsupported_format_request
  (env : Env) (req : Request) (st : State) (url fmt quality : string) :
  accepted env req = Some (url, fmt, quality) ->
  ~ supported fmt ->
  fst (download_get env req st)
    = Ok (error_response ("Unsupported format: " ++ fmt) 500) /\
  trace (snd (download_get env req st))
    = [EvRmtree (request_tmp env st); EvException "Download error";
       EvMkdtemp (request_tmp env st)] ++ trace st /\
  db (snd (download_get env req st)) = db st.
Proof.
  intros A Hs.
  assert (D : download_single env url fmt quality (request_tpl env st)
                (snd (mkdtemp env st))
              = (Raise (ValueError ("Unsupported format: " ++ fmt)),
                 snd (mkdtemp env st))).
  { unfold download_single, bind, lift, get_ydl_opts.
    destruct (String.eqb_spec fmt "mp4") as [->|_];
      [elim Hs; now left|].
    destruct (String.eqb_spec fmt "mp3") as [->|_];
      [elim Hs; now right|].
    reflexivity. }
  rewrite (download_get_orchestrator_raised env req st url fmt quality _ _
             A D).
  repeat split.
Qed.

Lemma unsupported_format_request_witness :
  fst (download_get (scripted [writes ["dl.wav"]] false) (request "wav")
         history_state)
    = Ok (error_response ("Unsupported format: " ++ "wav") 500) /\
  trace (snd (download_get (scripted [writes ["dl.wav"]] false)
                (request "wav") history_state))
    = [EvRmtree (request_tmp (scripted [writes ["dl.wav"]] false)
                   history_state);
       EvException "Download error";
       EvMkdtemp (request_tmp (scripted [writes ["dl.wav"]] false)
                    history_state)] ++ trace history_state /\
  db (snd (download_get (scripted [writes ["dl.wav"]] false) (request "wav")
             history_state)) = db history_state.
Proof.
  apply (unsupported_format_request
           (scripted [writes ["dl.wav"]] false) (request "wav") history_state
           "https://x/video" "wav" "best").
  - reflexivity.
  - intros [H | H]; discriminate H.
Defined.
